(** * Module path resolution of [src/module/internal/find-path.js]

    A shallow embedding of [findPath], [tryExtensions], [tryField],
    [tryFilename], [tryPackage] and [resolveExports], followed by the
    properties of the resolution algorithm that are checked against it.

    Everything the file imports (the path helpers, the filesystem probes,
    the package reader, the process flags) is gathered in one record,
    [Host]; the functions are definitions over an arbitrary host.  Every
    filesystem probe and every emitted warning is recorded in a trace, so
    that "no probe happens" and "a warning is emitted" are statements
    about the trace.  [getOptions] of [src/env/get-options.js] is embedded
    in the same way, over a record of its own imports. *)

From Stdlib Require Import ZArith Lia Ascii String List Bool.
From stdpp Require Import gmap strings list.

Local Open Scope Z_scope.
Set Warnings "-register-all".

(** ** JavaScript values

    Package descriptors come from JSON, so a value is a JSON value or
    [undefined] (what a missing property or an unset variable holds).
    An object is the list of its own properties in [Object.keys] order.
    Only the truthiness of a number is ever observed by this file, an
    integer stands for it. *)

Inductive value : Type :=
| VUndef
| VNull
| VBool (b : bool)
| VNum (n : Z)
| VStr (s : string)
| VArr (items : list value)
| VObj (props : list (string * value)).

(** [ToBoolean]. *)
Definition truthy (v : value) : bool :=
  match v with
  | VUndef | VNull => false
  | VBool b => b
  | VNum n => negb (n =? 0)
  | VStr s => negb (String.eqb s "")
  | VArr _ | VObj _ => true
  end.

(** Own-property lookup in a property list, [undefined] when absent. *)
Fixpoint get (k : string) (props : list (string * value)) : value :=
  match props with
  | [] => VUndef
  | (k', v) :: rest => if String.eqb k' k then v else get k rest
  end.

(** [o.k] / [o[k]] for any non-nullish [o]; primitives have no own
    properties of the names used here. *)
Definition prop (o : value) (k : string) : value :=
  match o with
  | VObj props => get k props
  | _ => VUndef
  end.

Definition is_string (v : value) : bool :=
  match v with VStr _ => true | _ => false end.

(** ** JavaScript string operations used by the file *)

Module JS.

Definition length (s : string) : Z := Z.of_nat (String.length s).

(** Index clamping of [String.prototype.substring]. *)
Definition clamp (s : string) (i : Z) : nat :=
  Z.to_nat (Z.min (Z.max i 0) (length s)).

(** [s.substring(start, end)]: both ends clamped to [0, length], and
    swapped when [start > end]. *)
Definition substring (s : string) (start end_ : Z) : string :=
  let a := clamp s start in
  let b := clamp s end_ in
  String.substring (Nat.min a b) (Nat.max a b - Nat.min a b) s.

(** [s.substring(start)]. *)
Definition substring_from (s : string) (start : Z) : string :=
  substring s start (length s).

(** [s.charCodeAt(i)], [None] standing for [NaN]. *)
Definition charCodeAt (s : string) (i : Z) : option Z :=
  if i <? 0 then None
  else match String.get (Z.to_nat i) s with
       | Some c => Some (Z.of_nat (nat_of_ascii c))
       | None => None
       end.

(** [s.startsWith(p)]. *)
Definition startsWith (s p : string) : bool := String.prefix p s.

(** [s.endsWith(p)]. *)
Definition endsWith (s p : string) : bool :=
  (String.length p <=? String.length s)%nat &&
  String.eqb (String.substring (String.length s - String.length p)
                               (String.length p) s) p.

(** [s.split(d)] for a one-character separator [d]. *)
Fixpoint split (d : ascii) (s : string) : list string :=
  match s with
  | EmptyString => [EmptyString]
  | String c rest =>
      if Ascii.eqb c d then EmptyString :: split d rest
      else match split d rest with
           | [] => [String c EmptyString]
           | piece :: pieces => String c piece :: pieces
           end
  end.

(** Expansion of the replacement text of [String.prototype.replace]
    for a string pattern (no captures): [$$], [$&], [$`] and [$'] are
    special, every other character stands for itself. *)
Fixpoint getSubstitution (matched before after repl : string) : string :=
  match repl with
  | EmptyString => EmptyString
  | String c rest =>
      if Ascii.eqb c "$" then
        match rest with
        | String d rest' =>
            if Ascii.eqb d "$" then
              String "$" (getSubstitution matched before after rest')
            else if Ascii.eqb d "&" then
              matched +:+ getSubstitution matched before after rest'
            else if Ascii.eqb d "`" then
              before +:+ getSubstitution matched before after rest'
            else if Ascii.eqb d "'" then
              after +:+ getSubstitution matched before after rest'
            else String c (getSubstitution matched before after rest)
        | EmptyString => String c EmptyString
        end
      else String c (getSubstitution matched before after rest)
  end.

(** [s.replace("*", repl)]: the first ["*"] only. *)
Fixpoint replace_star_from (before s repl : string) : string :=
  match s with
  | EmptyString => EmptyString
  | String c rest =>
      if Ascii.eqb c "*" then getSubstitution "*" before rest repl +:+ rest
      else String c (replace_star_from (before +:+ String c EmptyString) rest repl)
  end.

Definition replace_star (s repl : string) : string :=
  replace_star_from "" s repl.

(** [Array.prototype.join] with the default separator. *)
Fixpoint join_comma (l : list string) : string :=
  match l with
  | [] => ""
  | [x] => x
  | x :: rest => x +:+ "," +:+ join_comma rest
  end.

End JS.

(** ** The host: everything [find-path.js] imports *)

(** What [statSync] returns when it does not return [null]; [isFile] is
    the only method applied to it. *)
Record Stats : Type := { isFile : bool }.

Record Host : Type := {
  (* safe/path.js *)
  sep : string;
  basename : string -> string;
  dirname : string -> string;
  resolve : string -> string -> string;
  join : string -> string -> string;
  (* path/is-absolute.js, is-ext-js.js, is-ext-mjs.js, is-sep.js *)
  isAbsolute : string -> bool;
  isExtJS : value -> bool;
  isExtMJS : value -> bool;
  isSep : option Z -> bool;
  (* fs/stat-fast.js, fs/stat-sync.js, fs/realpath.js, safe/fs.js *)
  statFast : string -> Z;
  statSync : string -> option Stats;
  realpath : string -> string;
  existsSync : string -> bool;
  (* module/internal/read-package.js: [null] or the descriptor object *)
  readPackage : string -> list string -> option (list (string * value));
  (* constant/env.js *)
  TINK : bool;
  YARN_PNP : bool;
  preserveSymlinks : bool;
  preserveSymlinksMain : bool;
  pendingDeprecation : bool;
  (* util/keys.js applied to Module._extensions *)
  extensionKeys : list string;
  (* util/to-string-literal.js, util/inspect-trunc.js *)
  toStringLiteral : value -> Z -> string;
  inspectTrunc : value -> string
}.

(** Modelled from the spec: constant/char-code.js is not part of the
    sources.  [DOT] is the code of the [.] a request that denotes a
    directory may end with; [APOSTROPHE], the code of the quote, is only
    handed on to [toStringLiteral]. *)
Definition DOT : Z := 46.
Definition APOSTROPHE : Z := 39.

(** ** Effects: a trace of probes and warnings, and thrown errors *)

Inductive event : Type :=
| ProbeStatFast (path : string)
| ProbeStatSync (path : string)
| ProbeRealpath (path : string)
| ProbeExistsSync (path : string)
| ProbeReadPackage (dir : string) (fields : list string)
| Warning (message type code : string).

Definition is_probe (e : event) : bool :=
  match e with Warning _ _ _ => false | _ => true end.

Definition is_warning (e : event) : bool := negb (is_probe e).

Inductive error : Type :=
| MAIN_NOT_FOUND (request jsonPath : string)
| TypeError.

Inductive completion (A : Type) : Type :=
| Return (a : A)
| Throw (e : error).
Arguments Return {A} a.
Arguments Throw {A} e.

(** [W A]: a computation that only probes; [M A]: one that may throw too. *)
Definition W (A : Type) : Type := (list event * A)%type.
Definition M (A : Type) : Type := W (completion A).

Definition retW {A} (a : A) : W A := ([], a).
Definition bindW {A B} (c : W A) (k : A -> W B) : W B :=
  let (t1, a) := c in let (t2, b) := k a in (t1 ++ t2, b).
Definition emit (e : event) : W unit := ([e], tt).

Definition retM {A} (a : A) : M A := retW (Return a).
Definition throwM {A} (e : error) : M A := retW (Throw e).
Definition liftW {A} (c : W A) : M A := bindW c retM.
Definition bindM {A B} (c : M A) (k : A -> M B) : M B :=
  bindW c (fun r => match r with Return a => k a | Throw e => throwM e end).

Notation "'letW' x := c 'in' k" := (bindW c (fun x => k))
  (at level 10, x name, c at level 100, k at level 200).
Notation "'letM' x := c 'in' k" := (bindM c (fun x => k))
  (at level 10, x name, c at level 100, k at level 200).

Definition trace_of {A} (c : W A) : list event := fst c.
Definition result_of {A} (c : W A) : A := snd c.

Section FindPath.

Variable h : Host.

(** The probes, each leaving its mark in the trace. *)
Definition probeStatFast (p : string) : W Z :=
  letW _ := emit (ProbeStatFast p) in retW (statFast h p).
Definition probeStatSync (p : string) : W (option Stats) :=
  letW _ := emit (ProbeStatSync p) in retW (statSync h p).
Definition probeRealpath (p : string) : W string :=
  letW _ := emit (ProbeRealpath p) in retW (realpath h p).
Definition probeExistsSync (p : string) : W bool :=
  letW _ := emit (ProbeExistsSync p) in retW (existsSync h p).
Definition probeReadPackage (dir : string) (fields : list string)
  : W (option (list (string * value))) :=
  letW _ := emit (ProbeReadPackage dir fields) in retW (readPackage h dir fields).

(** Lines 53-63. *)
Definition preserveAllSymlinks : bool := TINK h || YARN_PNP h.
Definition resolveSymlinks : bool :=
  negb preserveAllSymlinks && negb (preserveSymlinks h).
Definition resolveSymlinksMain : bool :=
  negb preserveAllSymlinks && negb (preserveSymlinksMain h).

Definition useRealpath_of (isMain : bool) : bool :=
  if isMain then resolveSymlinksMain else resolveSymlinks.

(** The classification shared by [findPath] and [tryFilename]:
    [rc = -1], then a precise [statSync] for script extensions and
    [statFast] otherwise. *)
Definition classify (p : string) : W Z :=
  if isExtJS h (VStr p) || isExtMJS h (VStr p) then
    letW stat := probeStatSync p in
    match stat with
    | Some st => retW (if isFile st then 0 else 1)
    | None => retW (-1)
    end
  else probeStatFast p.

(** [tryFilename], lines 253-278. *)
Definition tryFilename (filename : string) (isMain : bool) : W string :=
  letW rc := classify filename in
  if negb (rc =? 0) then retW ""
  else if useRealpath_of isMain then probeRealpath filename
  else retW filename.

(** [tryExtensions], lines 221-231. *)
Fixpoint tryExtensions (thePath : string) (exts : list string) (isMain : bool)
  : W string :=
  match exts with
  | [] => retW ""
  | ext :: rest =>
      letW foundPath := tryFilename (thePath +:+ ext) isMain in
      if negb (String.eqb foundPath "") then retW foundPath
      else tryExtensions thePath rest isMain
  end.

(** [tryField], lines 233-251. *)
Definition tryField (dirPath : string) (fieldPath : value)
           (exts : list string) (isMain : bool) : W string :=
  match fieldPath with
  | VStr fieldPath =>
      let thePath := resolve h dirPath fieldPath in
      letW foundPath := tryFilename thePath isMain in
      letW foundPath :=
        (if String.eqb foundPath "" then tryExtensions thePath exts isMain
         else retW foundPath) in
      letW foundPath :=
        (if String.eqb foundPath ""
         then tryExtensions (thePath +:+ sep h +:+ "index") exts isMain
         else retW foundPath) in
      retW foundPath
  | _ => retW ""
  end.

(** *** [resolveExports], lines 334-396 *)

(** One entry of [conditions] (lines 370-375); [pattern] is the key
    the entry was built from, [endsWith] is [undefined] for a key
    without ["*"]. *)
Record condition : Type := {
  pattern : string;
  startsWith : string;
  endsWith : option string;
  cexports : value
}.

Definition wellKnownConditions : list string :=
  ["import"; "require"; "node"; "default"; "."].

Definition includes (l : list string) (k : string) : bool :=
  existsb (String.eqb k) l.

Definition conditions_of (props : list (string * value)) : list condition :=
  map (fun c =>
         let pieces := JS.split "*" c in
         {| pattern := c;
            startsWith := nth 0 pieces "";
            endsWith := nth_error pieces 1;
            cexports := get c props |})
      (List.filter (fun c => negb (includes wellKnownConditions c))
                   (map fst props)).

(** [!endsWith]. *)
Definition endsWith_falsy (e : option string) : bool :=
  match e with
  | None => true
  | Some s => String.eqb s ""
  end.

Definition endsWith_length (e : option string) : Z :=
  match e with
  | None => 0
  | Some s => JS.length s
  end.

(** The predicate of [conditions.find], lines 382-384. *)
Definition condition_matches (normalizedSubpath : string) (c : condition) : bool :=
  JS.startsWith normalizedSubpath (startsWith c) &&
  (endsWith_falsy (endsWith c) ||
   match endsWith c with
   | Some e => JS.endsWith normalizedSubpath e
   | None => false
   end).

(** [exports.find(p => existsSync(join(packagePath, p)))], line 344.
    The [join] of the host takes strings: it stands for Node's
    [path.join], which throws a [TypeError] on an argument that is not a
    string, and that throw is written out here. *)
Fixpoint findAvailable (items : list value) (packagePath : string)
  : M value :=
  match items with
  | [] => retM VUndef
  | VStr exportPath :: rest =>
      letM found := liftW (probeExistsSync (join h packagePath exportPath)) in
      if found : bool then retM (VStr exportPath)
      else findAvailable rest packagePath
  | _ :: _ => throwM TypeError
  end.

(** Lines 369-395, the wildcard patterns: [props] are the own
    properties of [exports] and [recur k] stands for
    [resolveExports(exports[k], packagePath, subpath)]. *)
Definition resolvePatterns (props : list (string * value))
           (recur : string -> M value) (packagePath subpath : string)
  : M value :=
  let conditions := conditions_of props in
  if negb (String.eqb subpath "") then
    let normalizedSubpath := "./" +:+ subpath in
    match List.find (condition_matches normalizedSubpath) conditions with
    | Some matchedCondition =>
        match cexports matchedCondition with
        | VStr target =>
            if negb (endsWith_falsy (endsWith matchedCondition)) then
              let pathToReplace :=
                JS.substring normalizedSubpath
                  (JS.length (startsWith matchedCondition))
                  (JS.length normalizedSubpath
                   - endsWith_length (endsWith matchedCondition)) in
              retM (VStr (join h packagePath
                               (JS.replace_star target pathToReplace)))
            else recur (pattern matchedCondition)
        | _ => recur (pattern matchedCondition)
        end
    | None => retM VNull
    end
  else retM VNull.

(** Lines 353-367, the conditions, then the patterns. *)
Definition resolveConditions (props : list (string * value))
           (recur : string -> M value) (packagePath subpath : string)
  : M value :=
  if truthy (get "require" props) then recur "require"
  else if truthy (get "node" props) then recur "node"
  else if truthy (get "default" props) then recur "default"
  else if truthy (get "." props) && String.eqb subpath "" then recur "."
  else resolvePatterns props recur packagePath subpath.

(** [f(exports[k])] by a walk over the own properties of [exports];
    a missing property reads as [undefined], on which [resolveExports]
    throws. *)
Definition recurAt (f : value -> M value)
  : list (string * value) -> string -> M value :=
  fix walk (ps : list (string * value)) (k : string) : M value :=
    match ps with
    | [] => throwM TypeError
    | (k', v) :: rest => if String.eqb k' k then f v else walk rest k
    end.

Fixpoint resolveExports (exports : value) (packagePath subpath : string)
         {struct exports} : M value :=
  match exports with
  | VStr target => retM (VStr (join h packagePath target))
  | VArr items =>
      letM availableExport := findAvailable items packagePath in
      match availableExport with
      | VStr exportPath =>
          if truthy availableExport
          then retM (VStr (join h packagePath exportPath))
          else retM VNull
      | _ => retM VNull
      end
  | VUndef | VNull => throwM TypeError
  | VBool _ | VNum _ =>
      resolveConditions [] (fun _ => throwM TypeError) packagePath subpath
  | VObj props =>
      resolveConditions props
        (recurAt (fun v => resolveExports v packagePath subpath) props)
        packagePath subpath
  end.

(** *** [tryPackage], lines 280-332 *)

(** [foundPath === ""] on a value that need not be a string. *)
Definition is_empty_string (v : value) : bool :=
  match v with
  | VStr s => String.eqb s ""
  | _ => false
  end.

(** The test of lines 295-297. *)
Definition field_accepted (field foundPath : string) : bool :=
  negb (String.eqb foundPath "") &&
  (String.eqb field "main" || negb (isExtMJS h (VStr foundPath))).

(** The loop of lines 291-300.  [inl p]: the loop returned [p];
    [inr (field, fieldValue)]: it ran to its end, leaving these in the
    two variables declared before it. *)
Fixpoint tryFields (json : list (string * value)) (dirPath : string)
         (fields exts : list string) (isMain : bool)
         (field fieldValue : value) : W (string + value * value) :=
  match fields with
  | [] => retW (inr (field, fieldValue))
  | f :: rest =>
      let fieldValue := get f json in
      letW foundPath := tryField dirPath fieldValue exts isMain in
      if field_accepted f foundPath then retW (inl foundPath)
      else tryFields json dirPath rest exts isMain (VStr f) fieldValue
  end.

(** Lines 306-311.  [Some p]: [p] is returned; [None]: fall through. *)
Definition tryExportsField (json : list (string * value))
           (request dirPath : string) : M (option value) :=
  if truthy (get "exports" json) then
    letM foundPath :=
      resolveExports (get "exports" json) dirPath
        (JS.substring_from request (JS.length dirPath + 1)) in
    if negb (is_empty_string foundPath) && negb (isExtMJS h foundPath)
    then retM (Some foundPath)
    else retM None
  else retM None.

Definition deprecationMessage (field : value) (jsonPath : string)
           (fieldValue : value) : string :=
  "Invalid " +:+ toStringLiteral h field APOSTROPHE +:+ " field in " +:+
  toStringLiteral h (VStr jsonPath) APOSTROPHE +:+ " of " +:+
  inspectTrunc h fieldValue +:+
  ". Please either fix or report it to the module author".

(** Lines 313-331. *)
Definition tryIndex (request dirPath : string) (exts : list string)
           (isMain : bool) (field fieldValue : value) : M value :=
  let jsonPath := dirPath +:+ sep h +:+ "package.json" in
  letM foundPath :=
    liftW (tryExtensions (dirPath +:+ sep h +:+ "index") exts isMain) in
  if String.eqb foundPath "" then throwM (MAIN_NOT_FOUND request jsonPath)
  else
    letM _ :=
      (if pendingDeprecation h
       then liftW (emit (Warning (deprecationMessage field jsonPath fieldValue)
                                 "DeprecationWarning" "DEP0128"))
       else retM tt) in
    retM (VStr foundPath).

Definition tryPackage (request dirPath : string) (fields exts : list string)
           (isMain : bool) : M value :=
  letM json := liftW (probeReadPackage dirPath fields) in
  match json with
  | None =>
      letM foundPath :=
        liftW (tryExtensions (dirPath +:+ sep h +:+ "index") exts isMain) in
      retM (VStr foundPath)
  | Some json =>
      letM looped :=
        liftW (tryFields json dirPath fields exts isMain VUndef VUndef) in
      match looped with
      | inl foundPath => retM (VStr foundPath)
      | inr (field, fieldValue) =>
          letM viaExports := tryExportsField json request dirPath in
          match viaExports with
          | Some foundPath => retM foundPath
          | None => tryIndex request dirPath exts isMain field fieldValue
          end
      end
  end.

(** *** [findPath], lines 65-219 *)

(** An optional list argument's share of the cache key, lines 75-87. *)
Definition keyPart (l : option (list string)) : string :=
  match l with
  | None => ""
  | Some [x] => x
  | Some xs => JS.join_comma xs
  end.

Definition NUL : string := String (ascii_of_nat 0) EmptyString.

(** Lines 68-93. *)
Definition cacheKey (request : string) (paths : list string) (isMain : bool)
           (fields exts : option (list string)) : string :=
  request +:+ NUL +:+
  (match paths with
   | [p] => p
   | _ => JS.join_comma paths
   end) +:+ NUL +:+
  keyPart fields +:+ NUL +:+
  keyPart exts +:+ NUL +:+
  (if isMain then "1" else "").

(** Lines 113-129. *)
Definition trailingSlash_of (request : string) : bool :=
  let requestLength := JS.length request in
  if negb (requestLength =? 0) then
    let code := JS.charCodeAt request (requestLength - 1) in
    let code :=
      if decide (code = Some DOT) then
        let code := JS.charCodeAt request (requestLength - 2) in
        if decide (code = Some DOT)
        then JS.charCodeAt request (requestLength - 3)
        else code
      else code in
    isSep h code
  else false.

Definition default_exts (exts : option (list string)) : list string :=
  match exts with
  | Some e => e
  | None => extensionKeys h
  end.

Definition mainFields : list string := ["main"].

Definition default_fields (fields : option (list string)) : list string :=
  match fields with
  | Some f => f
  | None => mainFields
  end.

(** One iteration of the loop of lines 140-216: the [foundPath] it ends
    with ([""] when the iteration is abandoned by [continue]) and the
    values it leaves in [fields] and [exts]. *)
Definition tryCandidate (curPath request : string)
           (isAbs useRealpath trailingSlash isMain : bool)
           (fields exts : option (list string))
  : M (value * option (list string) * option (list string)) :=
  letM skip :=
    liftW (if negb isAbs
           then letW rc := probeStatFast curPath in retW (negb (rc =? 1))
           else retW false) in
  if skip : bool then retM (VStr "", fields, exts)
  else
    letM thePath :=
      liftW (if useRealpath then probeRealpath curPath else retW curPath) in
    if useRealpath && String.eqb thePath "" then retM (VStr "", fields, exts)
    else
      let thePath :=
        if isAbs then
          if useRealpath then thePath +:+ sep h +:+ request else thePath
        else resolve h thePath request in
      letM rc := liftW (classify thePath) in
      letM probed :=
        liftW (if negb trailingSlash then
                 letW foundPath :=
                   (if rc =? 0 then
                      if useRealpath then probeRealpath thePath
                      else retW thePath
                    else retW "") in
                 if String.eqb foundPath "" then
                   let exts := default_exts exts in
                   letW foundPath := tryExtensions thePath exts isMain in
                   retW (foundPath, Some exts)
                 else retW (foundPath, exts)
               else retW ("", exts)) in
      let '(foundPath, exts) := probed in
      if (rc =? 1) && String.eqb foundPath "" then
        let exts := default_exts exts in
        let fields := default_fields fields in
        letM foundPath := tryPackage request thePath fields exts isMain in
        retM (foundPath, Some fields, Some exts)
      else retM (VStr foundPath, fields, exts).

(** The loop itself: [Some p] when an iteration reaches line 214 with
    [p], [None] when the paths are exhausted. *)
Fixpoint searchPaths (paths : list string) (request : string)
         (isAbs useRealpath trailingSlash isMain : bool)
         (fields exts : option (list string)) : M (option value) :=
  match paths with
  | [] => retM None
  | curPath :: rest =>
      letM r := tryCandidate curPath request isAbs useRealpath
                             trailingSlash isMain fields exts in
      let '(foundPath, fields, exts) := r in
      if negb (is_empty_string foundPath) then retM (Some foundPath)
      else searchPaths rest request isAbs useRealpath trailingSlash isMain
                       fields exts
  end.

(** [shared.memoize.moduleInternalFindPath] is a map from cache keys to
    results; [findPath] takes its content and returns it updated.

    Lines 102-218, reached when the cache has no entry under [key]. *)
Definition findPath_uncached (key request : string) (paths : list string)
           (isMain : bool) (fields exts : option (list string))
           (cache : gmap string value) : M value * gmap string value :=
  let pathsLength := List.length paths in
  let useRealpath := useRealpath_of isMain in
  let isAbs := isAbsolute h request in
  if negb isAbs && (pathsLength =? 0)%nat then (retM (VStr ""), cache)
  else
    let trailingSlash := trailingSlash_of request in
    let '(paths, request) :=
      if isAbs then
        if useRealpath then ([dirname h request], basename h request)
        else ([request], request)
      else (paths, request) in
    let run := searchPaths paths request isAbs useRealpath trailingSlash
                           isMain fields exts in
    match result_of run with
    | Return (Some foundPath) =>
        ((trace_of run, Return foundPath), <[key := foundPath]> cache)
    | Return None => ((trace_of run, Return (VStr "")), cache)
    | Throw e => ((trace_of run, Throw e), cache)
    end.

(** Lines 65-100, then the rest. *)
Definition findPath (request : string) (paths : list string) (isMain : bool)
           (fields exts : option (list string)) (cache : gmap string value)
  : M value * gmap string value :=
  let key := cacheKey request paths isMain fields exts in
  let cached := default VUndef (cache !! key) in
  match cached with
  | VUndef => findPath_uncached key request paths isMain fields exts cache
  | _ => (retM cached, cache)
  end.

End FindPath.

(** ** [getOptions] of [src/env/get-options.js]

    The function reads the process environment, may read one file, and
    keeps its result in [shared.env.options].  Its imports are gathered
    in a record of their own. *)

Module GetOptions.

Record Host : Type := {
  (* real/process.js: [realProcess.env], an object or a falsy value *)
  processEnv : value;
  (* util/is-path.js *)
  isPath : string -> bool;
  (* safe/path.js, one argument *)
  resolve : string -> string;
  (* fs/read-file.js with the encoding ["utf8"]: the text, or [null] *)
  readFile : string -> option string;
  (* util/parse-json6.js *)
  parseJSON6 : string -> value
}.

(** Modelled from the spec: constant/char-code.js is not part of the
    sources; the codes of the left curly bracket and of the double
    quote, next to [APOSTROPHE]. *)
Definition LEFT_CURLY_BRACKET : Z := 123.
Definition QUOTE : Z := 34.

(** White space and line terminators among the code units below 256:
    tab, line feed, vertical tab, form feed, carriage return, space and
    no-break space. *)
Definition is_space (c : ascii) : bool :=
  existsb (Nat.eqb (nat_of_ascii c)) [9; 10; 11; 12; 13; 32; 160]%nat.

Fixpoint trimStart (s : string) : string :=
  match s with
  | EmptyString => EmptyString
  | String c rest => if is_space c then trimStart rest else s
  end.

(** The string without its trailing white space. *)
Fixpoint trimEnd (s : string) : string :=
  match s with
  | EmptyString => EmptyString
  | String c rest =>
      match trimEnd rest with
      | EmptyString => if is_space c then EmptyString else String c EmptyString
      | kept => String c kept
      end
  end.

(** [s.trim()]. *)
Definition trim (s : string) : string := trimEnd (trimStart s).

(** The test of lines 42-44 on [options.charCodeAt(0)]. *)
Definition looks_like_json (options : string) : bool :=
  match JS.charCodeAt options 0 with
  | Some code0 =>
      (code0 =? APOSTROPHE) || (code0 =? LEFT_CURLY_BRACKET) || (code0 =? QUOTE)
  | None => false
  end.

(** One call.  [env] is the [options] property of [shared.env], [None]
    when the object has no such property; the call returns the files it
    read, its result and the property as it leaves it. *)
Definition getOptions (o : Host) (env : option value)
  : list string * value * option value :=
  match env with
  | Some options => ([], options, env)
  | None =>
      let ESM_OPTIONS :=
        if truthy (processEnv o) then prop (processEnv o) "ESM_OPTIONS"
        else processEnv o in
      match ESM_OPTIONS with
      | VStr text =>
          let options := trim text in
          let '(reads, options) :=
            if isPath o options
            then ([resolve o options], readFile o (resolve o options))
            else ([], Some options) in
          match options with
          | Some options =>
              if String.eqb options "" then (reads, VNull, Some VNull)
              else
                let options :=
                  if looks_like_json options then parseJSON6 o options
                  else VStr options in
                (reads, options, Some options)
          | None => (reads, VNull, Some VNull)
          end
      | _ => ([], VNull, Some VNull)
      end
  end.

Definition reads_of (r : list string * value * option value) : list string :=
  fst (fst r).
Definition options_of (r : list string * value * option value) : value :=
  snd (fst r).
Definition env_of (r : list string * value * option value) : option value :=
  snd r.

End GetOptions.

(** ** A POSIX host over a finite disk

    The closed examples below run the functions on this host: Node's
    POSIX [path] functions on absolute paths, and a disk given by the
    lists of its regular files, of its directories and of the package
    descriptors found in them.  There are no symbolic links on it. *)

Module Posix.

Record Disk : Type := {
  files : list string;
  dirs : list string;
  packages : list (string * list (string * value))
}.

Definition mem (p : string) (l : list string) : bool :=
  existsb (String.eqb p) l.

Fixpoint join_slash (segs : list string) : string :=
  match segs with
  | [] => ""
  | [x] => x
  | x :: rest => x +:+ "/" +:+ join_slash rest
  end.

(** Segments of a path with the empty and ["."] ones dropped and
    [".."] consuming the segment before it; [acc] is reversed. *)
Fixpoint normalize_segments (segs acc : list string) : list string :=
  match segs with
  | [] => rev acc
  | seg :: rest =>
      if String.eqb seg "" || String.eqb seg "." then
        normalize_segments rest acc
      else if String.eqb seg ".." then normalize_segments rest (tl acc)
      else normalize_segments rest (seg :: acc)
  end.

Definition path_isAbsolute (p : string) : bool := String.prefix "/" p.

(** [path.normalize] on absolute paths, the trailing separator dropped. *)
Definition normalize (p : string) : string :=
  (if path_isAbsolute p then "/" else "") +:+
  join_slash (normalize_segments (JS.split "/" p) []).

Definition path_join (a b : string) : string := normalize (a +:+ "/" +:+ b).

Definition path_resolve (from to : string) : string :=
  if path_isAbsolute to then normalize to else normalize (from +:+ "/" +:+ to).

Definition path_dirname (p : string) : string :=
  "/" +:+ join_slash (removelast (normalize_segments (JS.split "/" p) [])).

Definition path_basename (p : string) : string :=
  List.last (normalize_segments (JS.split "/" p) []) "".

Definition has_ext (ext : string) (v : value) : bool :=
  match v with
  | VStr s => (String.length ext <? String.length s)%nat && JS.endsWith s ext
  | _ => false
  end.

Definition fs_statFast (d : Disk) (p : string) : Z :=
  if mem p (files d) then 0 else if mem p (dirs d) then 1 else -1.

Definition fs_statSync (d : Disk) (p : string) : option Stats :=
  if mem p (files d) then Some {| isFile := true |}
  else if mem p (dirs d) then Some {| isFile := false |}
  else None.

Definition fs_existsSync (d : Disk) (p : string) : bool :=
  mem p (files d) || mem p (dirs d).

Definition fs_realpath (d : Disk) (p : string) : string :=
  if fs_existsSync d p then p else "".

Fixpoint fs_readPackage (pkgs : list (string * list (string * value)))
         (dir : string) : option (list (string * value)) :=
  match pkgs with
  | [] => None
  | (d, json) :: rest => if String.eqb d dir then Some json else fs_readPackage rest dir
  end.

Definition inspect (v : value) : string :=
  match v with
  | VUndef => "undefined"
  | VNull => "null"
  | VBool true => "true"
  | VBool false => "false"
  | VNum _ => "<number>"
  | VStr s => "'" +:+ s +:+ "'"
  | VArr _ => "[...]"
  | VObj _ => "{...}"
  end.

(** [preserve]: the two [--preserve-symlinks] flags; [pending]:
    [--pending-deprecation]. *)
Definition host (d : Disk) (preserve pending : bool) : Host := {|
  sep := "/";
  basename := path_basename;
  dirname := path_dirname;
  resolve := path_resolve;
  join := path_join;
  isAbsolute := path_isAbsolute;
  isExtJS := has_ext ".js";
  isExtMJS := has_ext ".mjs";
  isSep := fun code => bool_decide (code = Some 47);
  statFast := fs_statFast d;
  statSync := fs_statSync d;
  realpath := fs_realpath d;
  existsSync := fs_existsSync d;
  readPackage := fun dir _ => fs_readPackage (packages d) dir;
  TINK := false;
  YARN_PNP := false;
  preserveSymlinks := preserve;
  preserveSymlinksMain := preserve;
  pendingDeprecation := pending;
  extensionKeys := [".js"; ".json"; ".node"];
  toStringLiteral := fun v _ => inspect v;
  inspectTrunc := inspect
|}.

End Posix.


(** ** Vocabulary of the statements *)

Definition nonempty (s : string) : bool := negb (String.eqb s "").

(** What [tryFilename(thePath + ext, isMain)] returns. *)
Definition probed (h : Host) (thePath : string) (isMain : bool) (ext : string)
  : string :=
  result_of (tryFilename h (thePath +:+ ext) isMain).

(** The first element of a list of results that is not [""]. *)
Definition first_nonempty (l : list string) : string :=
  match List.find nonempty l with
  | Some s => s
  | None => ""
  end.

(** What the field [f] of the descriptor [json] resolves to. *)
Definition resolved (h : Host) (json : list (string * value)) (dir : string)
           (exts : list string) (isMain : bool) (f : string) : string :=
  result_of (tryField h dir (get f json) exts isMain).

(** A field is taken when it resolves and is literally ["main"] or does
    not resolve to an [.mjs] file. *)
Definition accepted (h : Host) (json : list (string * value)) (dir : string)
           (exts : list string) (isMain : bool) (f : string) : bool :=
  nonempty (resolved h json dir exts isMain f) &&
  (String.eqb f "main" ||
   negb (isExtMJS h (VStr (resolved h json dir exts isMain f)))).

(** What [dir/index] plus the extensions resolves to. *)
Definition index_found (h : Host) (dir : string) (exts : list string)
           (isMain : bool) : string :=
  result_of (tryExtensions h (dir +:+ sep h +:+ "index") exts isMain).

(** The outcome of the steps that follow the loop over the fields: the
    exports declaration, then the index fallback. *)
Definition after_fields (h : Host) (json : list (string * value))
           (request dir : string) (exts : list string) (isMain : bool)
  : completion value :=
  match result_of (tryExportsField h json request dir) with
  | Return (Some foundPath) => Return foundPath
  | Return None =>
      if nonempty (index_found h dir exts isMain)
      then Return (VStr (index_found h dir exts isMain))
      else Throw (MAIN_NOT_FOUND request (dir +:+ sep h +:+ "package.json"))
  | Throw e => Throw e
  end.

Definition warns (t : list event) : bool := existsb is_warning t.

Definition probes (t : list event) : list event := List.filter is_probe t.

(** A trace without warnings. *)
Definition quiet (t : list event) : Prop :=
  Forall (fun e => is_probe e = true) t.

(** A computation that only probes (no warning), does not return
    [undefined] and throws nothing but a [TypeError]. *)
Definition tame (c : M value) : Prop :=
  quiet (trace_of c) /\
  match result_of c with
  | Return v => v <> VUndef
  | Throw e => e = TypeError
  end.

(** The host with its [pendingDeprecation] flag set to [b]. *)
Definition with_pendingDeprecation (b : bool) (h : Host) : Host := {|
  sep := sep h;
  basename := basename h;
  dirname := dirname h;
  resolve := resolve h;
  join := join h;
  isAbsolute := isAbsolute h;
  isExtJS := isExtJS h;
  isExtMJS := isExtMJS h;
  isSep := isSep h;
  statFast := statFast h;
  statSync := statSync h;
  realpath := realpath h;
  existsSync := existsSync h;
  readPackage := readPackage h;
  TINK := TINK h;
  YARN_PNP := YARN_PNP h;
  preserveSymlinks := preserveSymlinks h;
  preserveSymlinksMain := preserveSymlinksMain h;
  pendingDeprecation := b;
  extensionKeys := extensionKeys h;
  toStringLiteral := toStringLiteral h;
  inspectTrunc := inspectTrunc h
|}.

(** ** Example disks *)

(** A disk holding both [/app/mod.mjs] and [/app/mod.js]. *)
Definition disk_both : Posix.Disk := {|
  Posix.files := ["/app/mod.js"; "/app/mod.mjs"];
  Posix.dirs := ["/app"];
  Posix.packages := []
|}.

(** [/nm/pkg] with [package.json = {"exports": {"./lib/*": "./dist/*.js"}}]. *)
Definition exports_wildcard : value := VObj [("./lib/*", VStr "./dist/*.js")].

Definition disk_wildcard : Posix.Disk := {|
  Posix.files := ["/nm/pkg/index.js"; "/nm/pkg/dist/foo.js"];
  Posix.dirs := ["/nm"; "/nm/pkg"; "/nm/pkg/dist"];
  Posix.packages := [("/nm/pkg", [("exports", exports_wildcard)])]
|}.

(** The same descriptor in a directory named [/lib/foo], next to a
    directory [/x]. *)
Definition disk_wildcard_lib : Posix.Disk := {|
  Posix.files := ["/lib/foo/dist/foo.js"];
  Posix.dirs := ["/x"; "/lib"; "/lib/foo"; "/lib/foo/dist"];
  Posix.packages := [("/lib/foo", [("exports", exports_wildcard)])]
|}.

(** [/nm/pkg] with [package.json = {"exports": {"./feature":
    "./dist/feature.js"}}], with and without an [index.js]. *)
Definition exports_feature : value := VObj [("./feature", VStr "./dist/feature.js")].

Definition disk_feature : Posix.Disk := {|
  Posix.files := ["/nm/pkg/index.js"; "/nm/pkg/dist/feature.js"];
  Posix.dirs := ["/nm"; "/nm/pkg"; "/nm/pkg/dist"];
  Posix.packages := [("/nm/pkg", [("exports", exports_feature)])]
|}.

Definition disk_feature_no_index : Posix.Disk := {|
  Posix.files := ["/nm/pkg/dist/feature.js"];
  Posix.dirs := ["/nm"; "/nm/pkg"; "/nm/pkg/dist"];
  Posix.packages := [("/nm/pkg", [("exports", exports_feature)])]
|}.

(** [/nm/pkg] with [package.json = {"exports": {"import": "./esm.mjs"}}]
    and an [index.js]. *)
Definition exports_import_only : value := VObj [("import", VStr "./esm.mjs")].

Definition disk_import_only : Posix.Disk := {|
  Posix.files := ["/nm/pkg/index.js"; "/nm/pkg/esm.mjs"];
  Posix.dirs := ["/nm"; "/nm/pkg"];
  Posix.packages := [("/nm/pkg", [("exports", exports_import_only)])]
|}.

(** A directory whose name ends in a comma, next to [/a] and [/b]. *)
Definition disk_comma : Posix.Disk := {|
  Posix.files := ["/a,/b/x.js"];
  Posix.dirs := ["/a"; "/b"; "/a,"; "/a,/b"];
  Posix.packages := []
|}.

(** [/nm/dual] with [package.json = {"module": "./esm.mjs", "main":
    "./cjs.js"}]. *)
Definition json_dual : list (string * value) :=
  [("module", VStr "./esm.mjs"); ("main", VStr "./cjs.js")].

Definition disk_dual : Posix.Disk := {|
  Posix.files := ["/nm/dual/esm.mjs"; "/nm/dual/cjs.js"];
  Posix.dirs := ["/nm"; "/nm/dual"];
  Posix.packages := [("/nm/dual", json_dual)]
|}.

(** [/nm/old] with [package.json = {"main": "./missing.js"}] and an
    [index.js]. *)
Definition json_old : list (string * value) := [("main", VStr "./missing.js")].

Definition disk_old : Posix.Disk := {|
  Posix.files := ["/nm/old/index.js"];
  Posix.dirs := ["/nm"; "/nm/old"];
  Posix.packages := [("/nm/old", json_old)]
|}.

(** [{"require": [], "default": "./x.js"}]. *)
Definition exports_require_empty : value :=
  VObj [("require", VArr []); ("default", VStr "./x.js")].

(** [/nm/old] with [package.json = {"name": "old", "main": 1}] and an
    [index.js]. *)
Definition json_no_entry : list (string * value) :=
  [("name", VStr "old"); ("main", VNum 1)].

Definition disk_no_entry : Posix.Disk := {|
  Posix.files := ["/nm/old/index.js"];
  Posix.dirs := ["/nm"; "/nm/old"];
  Posix.packages := [("/nm/old", json_no_entry)]
|}.

(** [/nm/pkg] with [package.json = {"exports": "./dist/entry.js"}] and
    no [dist] directory at all. *)
Definition json_literal : list (string * value) :=
  [("exports", VStr "./dist/entry.js")].

Definition disk_literal : Posix.Disk := {|
  Posix.files := ["/nm/pkg/index.js"];
  Posix.dirs := ["/nm"; "/nm/pkg"];
  Posix.packages := [("/nm/pkg", json_literal)]
|}.

(** A process started with [ESM_OPTIONS=" cjs "], and one started
    without the variable; no file is a path for them. *)
Definition options_host (env : list (string * value)) : GetOptions.Host := {|
  GetOptions.processEnv := VObj env;
  GetOptions.isPath := fun _ => false;
  GetOptions.resolve := fun p => p;
  GetOptions.readFile := fun _ => None;
  GetOptions.parseJSON6 := fun _ => VNull
|}.

(** [/nm/pkg] with [package.json = {"exports": "./esm.mjs"}], that
    file and an [index.js]. *)
Definition json_esm_only : list (string * value) := [("exports", VStr "./esm.mjs")].

Definition disk_esm_only : Posix.Disk := {|
  Posix.files := ["/nm/pkg/index.js"; "/nm/pkg/esm.mjs"];
  Posix.dirs := ["/nm"; "/nm/pkg"];
  Posix.packages := [("/nm/pkg", json_esm_only)]
|}.

(** [/nm/pkg] with [package.json = {"module": "./esm.mjs", "exports":
    {"import": "./esm.mjs"}}], that file and an [index.js]. *)
Definition json_module_import : list (string * value) :=
  [("module", VStr "./esm.mjs"); ("exports", VObj [("import", VStr "./esm.mjs")])].

Definition disk_module_import : Posix.Disk := {|
  Posix.files := ["/nm/pkg/index.js"; "/nm/pkg/esm.mjs"];
  Posix.dirs := ["/nm"; "/nm/pkg"];
  Posix.packages := [("/nm/pkg", json_module_import)]
|}.

(** [/nm/pkg] with [package.json = {"main": "./dist/entry.js", "exports":
    "./dist/entry.js"}] and no [dist] directory. *)
Definition json_literal_main : list (string * value) :=
  [("main", VStr "./dist/entry.js"); ("exports", VStr "./dist/entry.js")].

Definition disk_literal_main : Posix.Disk := {|
  Posix.files := ["/nm/pkg/index.js"];
  Posix.dirs := ["/nm"; "/nm/pkg"];
  Posix.packages := [("/nm/pkg", json_literal_main)]
|}.

(** ** The statements that are compared with the code *)

(** Resolution went through the loop over the fields and through the
    exports declaration without a result, and [dir/index] gave one. *)
Definition via_index_only (h : Host) (json : list (string * value))
           (request dir : string) (fields exts : list string) (isMain : bool)
  : Prop :=
  List.find (accepted h json dir exts isMain) fields = None /\
  result_of (tryExportsField h json request dir) = Return None /\
  index_found h dir exts isMain <> "".

(** Some field other than ["main"], asked for or present in the
    descriptor, has a value that is not a string. *)
Definition malformed_non_main (json : list (string * value))
           (fields : list string) : Prop :=
  exists f, (In f fields \/ In f (map fst json)) /\
            f <> "main" /\ is_string (get f json) = false.

(** The deprecation warning as the specification words it. *)
Definition warning_iff_malformed_field : Prop :=
  forall h request dir fields exts isMain,
    warns (trace_of (tryPackage h request dir fields exts isMain)) = true <->
    exists json,
      readPackage h dir fields = Some json /\
      via_index_only h json request dir fields exts isMain /\
      malformed_non_main json fields /\
      pendingDeprecation h = true.

(** The conditions of a mapping in their order of precedence; ["."]
    counts only for an empty subpath. *)
Definition applicable_conditions (subpath : string) : list string :=
  ["require"; "node"; "default"] ++
  (if String.eqb subpath "" then ["."] else []).

(** The key [k] is declared by the mapping. *)
Definition present (props : list (string * value)) (k : string) : bool :=
  existsb (String.eqb k) (map fst props).

(** A resolution that gave a result: neither a failure nor an error. *)
Definition yields_result (c : M value) : bool :=
  match result_of c with
  | Return VNull => false
  | Return _ => true
  | Throw _ => false
  end.

(** The precedence as the specification words it: the first present
    condition that yields a result is the one whose result is returned. *)
Definition first_yielding_condition (h : Host) (props : list (string * value))
           (packagePath subpath : string) : option string :=
  List.find
    (fun k => present props k &&
              yields_result (resolveExports h (get k props) packagePath subpath))
    (applicable_conditions subpath).

Definition precedence_by_first_result : Prop :=
  forall h props packagePath subpath k,
    first_yielding_condition h props packagePath subpath = Some k ->
    resolveExports h (VObj props) packagePath subpath =
    resolveExports h (get k props) packagePath subpath.

(** The cache as the specification words it: whatever the first call
    returned, a second call with the same arguments returns the same and
    probes nothing. *)
Definition second_call_is_cache_hit : Prop :=
  forall h request paths isMain fields exts cache,
    let first := findPath h request paths isMain fields exts cache in
    let second := findPath h request paths isMain fields exts (snd first) in
    result_of (fst second) = result_of (fst first) /\
    probes (trace_of (fst second)) = [].

(** ** Vocabulary of the further properties *)

(** Every entry of the cache is a found path: neither [undefined] nor
    the [""] that stands for "not found". *)
Definition cache_sound (cache : gmap string value) : Prop :=
  forall k v, cache !! k = Some v -> v <> VUndef /\ is_empty_string v = false.

(** What one search path gives, and whether it ends the search. *)
Definition candidate (h : Host) (request : string)
           (isAbs useRealpath trailingSlash isMain : bool)
           (fields exts : list string) (curPath : string)
  : completion (value * option (list string) * option (list string)) :=
  result_of (tryCandidate h curPath request isAbs useRealpath trailingSlash
                          isMain (Some fields) (Some exts)).

Definition settles
           (r : completion (value * option (list string) * option (list string)))
  : bool :=
  match r with
  | Return (foundPath, _, _) => negb (is_empty_string foundPath)
  | Throw _ => true
  end.

(** The code of the character of a string with one character. *)
Definition code_of (c : ascii) : Z := Z.of_nat (nat_of_ascii c).

(** The last character of a string. *)
Fixpoint last_char (s : string) : option ascii :=
  match s with
  | EmptyString => None
  | String c EmptyString => Some c
  | String _ rest => last_char rest
  end.

(** Two outcomes of an iteration that agree up to the defaults. *)
Definition agree_up_to_defaults (h : Host)
           (r r' : completion (value * option (list string) * option (list string)))
  : Prop :=
  match r, r' with
  | Return (v, f, e), Return (v', f', e') =>
      v = v' /\ default_fields f = default_fields f' /\
      default_exts h e = default_exts h e'
  | Throw x, Throw x' => x = x'
  | _, _ => False
  end.

(** The string holds a ["*"]. *)
Fixpoint has_star (s : string) : bool :=
  match s with
  | EmptyString => false
  | String c rest => Ascii.eqb c "*" || has_star rest
  end.

(** * Facts about the embedding *)

(** ** The two monads *)

Section MonadFacts.

Context {A B : Type}.

Lemma result_retW (a : A) : result_of (retW a) = a.
Proof. reflexivity. Qed.

Lemma trace_retW (a : A) : trace_of (retW a) = [].
Proof. reflexivity. Qed.

Lemma result_bindW (c : W A) (k : A -> W B) :
  result_of (bindW c k) = result_of (k (result_of c)).
Proof. destruct c as [t a]; cbn. destruct (k a); reflexivity. Qed.

Lemma trace_bindW (c : W A) (k : A -> W B) :
  trace_of (bindW c k) = trace_of c ++ trace_of (k (result_of c)).
Proof. destruct c as [t a]; cbn. destruct (k a); reflexivity. Qed.

Lemma result_liftW (c : W A) : result_of (liftW c) = Return (result_of c).
Proof. destruct c; reflexivity. Qed.

Lemma trace_liftW (c : W A) : trace_of (liftW c) = trace_of c.
Proof. destruct c; cbn. apply app_nil_r. Qed.

Lemma result_bindM (c : M A) (k : A -> M B) :
  result_of (bindM c k) =
  match result_of c with
  | Return a => result_of (k a)
  | Throw e => Throw e
  end.
Proof.
  destruct c as [t [a|e]]; cbn; [destruct (k a)|]; reflexivity.
Qed.

Lemma trace_bindM (c : M A) (k : A -> M B) :
  trace_of (bindM c k) =
  trace_of c ++ match result_of c with
                | Return a => trace_of (k a)
                | Throw e => []
                end.
Proof.
  destruct c as [t [a|e]]; cbn; [destruct (k a)|]; reflexivity.
Qed.

End MonadFacts.

(** ** Induction on values, through arrays and objects *)

Section ValueInduction.

Variable P : value -> Prop.
Hypothesis P_undef : P VUndef.
Hypothesis P_null : P VNull.
Hypothesis P_bool : forall b, P (VBool b).
Hypothesis P_num : forall n, P (VNum n).
Hypothesis P_str : forall s, P (VStr s).
Hypothesis P_arr : forall items, Forall P items -> P (VArr items).
Hypothesis P_obj :
  forall props, Forall (fun kv => P (snd kv)) props -> P (VObj props).

Fixpoint value_nested_ind (v : value) : P v :=
  match v with
  | VUndef => P_undef
  | VNull => P_null
  | VBool b => P_bool b
  | VNum n => P_num n
  | VStr s => P_str s
  | VArr items =>
      P_arr items
        ((fix all (l : list value) : Forall P l :=
            match l with
            | [] => List.Forall_nil P
            | x :: rest =>
                @List.Forall_cons _ P x rest (value_nested_ind x) (all rest)
            end) items)
  | VObj props =>
      P_obj props
        ((fix all (l : list (string * value))
            : Forall (fun kv => P (snd kv)) l :=
            match l with
            | [] => List.Forall_nil _
            | kv :: rest =>
                @List.Forall_cons _ _ kv rest (value_nested_ind (snd kv)) (all rest)
            end) props)
  end.

End ValueInduction.

(** ** [resolveExports] *)

Section ResolveExportsFacts.

Variable h : Host.

(** The walk over the properties is the call on the property read. *)
Lemma recurAt_get (f : value -> M value) props k :
  f VUndef = throwM TypeError ->
  recurAt f props k = f (get k props).
Proof.
  intros Hundef. induction props as [|[k' v] rest IH]; cbn.
  - symmetry; exact Hundef.
  - destruct (String.eqb k' k); [reflexivity | exact IH].
Qed.

Lemma resolvePatterns_ext props (r1 r2 : string -> M value) packagePath subpath :
  (forall k, r1 k = r2 k) ->
  resolvePatterns h props r1 packagePath subpath =
  resolvePatterns h props r2 packagePath subpath.
Proof.
  intros Hext. unfold resolvePatterns.
  destruct (negb (subpath =? "")%string); [|reflexivity].
  destruct (List.find _ _) as [c|]; [|reflexivity].
  rewrite Hext. reflexivity.
Qed.

Lemma resolveConditions_ext props (r1 r2 : string -> M value) packagePath subpath :
  (forall k, r1 k = r2 k) ->
  resolveConditions h props r1 packagePath subpath =
  resolveConditions h props r2 packagePath subpath.
Proof.
  intros Hext. unfold resolveConditions.
  rewrite !Hext, (resolvePatterns_ext _ r1 r2) by exact Hext.
  reflexivity.
Qed.

(** The source-shaped equation of the mapping case. *)
Lemma resolveExports_obj props packagePath subpath :
  resolveExports h (VObj props) packagePath subpath =
  resolveConditions h props
    (fun k => resolveExports h (get k props) packagePath subpath)
    packagePath subpath.
Proof.
  cbn [resolveExports].
  apply resolveConditions_ext. intros k.
  apply recurAt_get. reflexivity.
Qed.

End ResolveExportsFacts.

(** ** [tryExtensions] *)

Lemma nonempty_true s : nonempty s = true <-> s <> "".
Proof.
  unfold nonempty. destruct (String.eqb_spec s ""); cbn; split; congruence.
Qed.

Lemma nonempty_false s : nonempty s = false <-> s = "".
Proof.
  unfold nonempty. destruct (String.eqb_spec s ""); cbn; split; congruence.
Qed.

Lemma tryExtensions_result h thePath exts isMain :
  result_of (tryExtensions h thePath exts isMain) =
  first_nonempty (map (probed h thePath isMain) exts).
Proof.
  induction exts as [|ext rest IH]; [reflexivity|].
  cbn [tryExtensions map]. rewrite result_bindW.
  unfold first_nonempty. cbn [List.find].
  fold (probed h thePath isMain ext). fold (nonempty (probed h thePath isMain ext)).
  destruct (nonempty (probed h thePath isMain ext)); [reflexivity|].
  exact IH.
Qed.

(** C8.  [tryExtensions] returns what [tryFilename(base + ext)] returns
    for the first extension, in caller order, for which that is not [""],
    and [""] when there is none; with [exts = [".mjs", ".js"]] and both
    files found, the [.mjs] result is the one returned. *)
Theorem C8_tryExtensions_caller_order (h : Host) (base : string) (isMain : bool) :
  (forall exts,
      result_of (tryExtensions h base exts isMain) =
      match List.find (fun ext => nonempty (probed h base isMain ext)) exts with
      | Some ext => probed h base isMain ext
      | None => ""
      end) /\
  (probed h base isMain ".mjs" <> "" ->
   probed h base isMain ".js" <> "" ->
   result_of (tryExtensions h base [".mjs"; ".js"] isMain) =
   probed h base isMain ".mjs").
Proof.
  split.
  - intros exts. rewrite tryExtensions_result. unfold first_nonempty.
    induction exts as [|ext rest IH]; [reflexivity|].
    cbn [map List.find].
    destruct (nonempty (probed h base isMain ext)); [reflexivity | exact IH].
  - intros Hmjs _. rewrite tryExtensions_result. unfold first_nonempty.
    cbn [map List.find].
    apply nonempty_true in Hmjs. rewrite Hmjs. reflexivity.
Qed.

Lemma C8_tryExtensions_caller_order_witness :
  probed (Posix.host disk_both true false) "/app/mod" false ".mjs" <> "" /\
  probed (Posix.host disk_both true false) "/app/mod" false ".js" <> "" /\
  result_of (tryExtensions (Posix.host disk_both true false) "/app/mod"
                           [".mjs"; ".js"] false) = "/app/mod.mjs".
Proof.
  assert (Hmjs : probed (Posix.host disk_both true false) "/app/mod" false ".mjs" <> "")
    by (vm_compute; discriminate).
  assert (Hjs : probed (Posix.host disk_both true false) "/app/mod" false ".js" <> "")
    by (vm_compute; discriminate).
  split; [exact Hmjs | split; [exact Hjs |]].
  rewrite (proj2 (C8_tryExtensions_caller_order
                    (Posix.host disk_both true false) "/app/mod" false) Hmjs Hjs).
  reflexivity.
Defined.

(** ** The cache key *)

(** C9.  The cache key is not injective: the path lists [["a,b"]] and
    [["a"; "b"]] give the same key whatever the other arguments are, and
    on a disk where only [/a,/b/x.js] exists a call for the two paths
    [/a] and [/b] is answered from the entry that a call for the one path
    [/a,/b] left in the cache, although on its own it finds nothing. *)
Theorem C9_cacheKey_not_injective :
  (forall request isMain fields exts,
      cacheKey request ["a,b"] isMain fields exts =
      cacheKey request ["a"; "b"] isMain fields exts) /\
  ["a,b"] <> ["a"; "b"] /\
  (let h := Posix.host disk_comma true false in
   let first := findPath h "x.js" ["/a,/b"] false None None ∅ in
   result_of (fst first) = Return (VStr "/a,/b/x.js") /\
   fst (findPath h "x.js" ["/a"; "/b"] false None None (snd first)) =
     ([], Return (VStr "/a,/b/x.js")) /\
   result_of (fst (findPath h "x.js" ["/a"; "/b"] false None None ∅)) =
     Return (VStr "")).
Proof.
  split; [|split].
  - intros request isMain fields exts. reflexivity.
  - discriminate.
  - vm_compute. repeat split; reflexivity.
Qed.

(** ** What [resolveExports] can return, and what it leaves in the trace *)

Lemma tame_ret v : v <> VUndef -> tame (retM v).
Proof. intros Hv. split; [constructor | exact Hv]. Qed.

Lemma tame_throw : tame (throwM TypeError).
Proof. split; [constructor | reflexivity]. Qed.

Lemma get_Forall (P : value -> Prop) k props :
  P VUndef -> Forall (fun kv => P (snd kv)) props -> P (get k props).
Proof.
  intros Hundef Hall. induction Hall as [|[k' v] rest Hv _ IH]; cbn.
  - exact Hundef.
  - destruct (String.eqb k' k); [exact Hv | exact IH].
Qed.

Lemma findAvailable_trace h items packagePath :
  Forall (fun e => is_probe e = true)
         (trace_of (findAvailable h items packagePath)).
Proof.
  induction items as [|item rest IH]; [constructor|].
  destruct item; try (cbn; constructor).
  cbn [findAvailable]. rewrite trace_bindM, trace_liftW, result_liftW.
  apply Forall_app. split; [repeat constructor|].
  cbn. destruct (existsSync h _); [constructor | exact IH].
Qed.

Lemma findAvailable_throws h items packagePath :
  match result_of (findAvailable h items packagePath) with
  | Return _ => True
  | Throw e => e = TypeError
  end.
Proof.
  induction items as [|item rest IH]; [exact I|].
  destruct item; try reflexivity.
  cbn [findAvailable]. rewrite result_bindM, result_liftW.
  destruct (result_of (probeExistsSync _ _)); [exact I | exact IH].
Qed.

Lemma resolvePatterns_tame h props recur packagePath subpath :
  (forall k, tame (recur k)) ->
  tame (resolvePatterns h props recur packagePath subpath).
Proof.
  intros Hrec. unfold resolvePatterns.
  destruct (negb (subpath =? "")%string); [|apply tame_ret; discriminate].
  destruct (List.find _ _) as [c|]; [|apply tame_ret; discriminate].
  destruct (cexports c); try apply Hrec.
  destruct (negb _); [apply tame_ret; discriminate | apply Hrec].
Qed.

Lemma resolveConditions_tame h props recur packagePath subpath :
  (forall k, tame (recur k)) ->
  tame (resolveConditions h props recur packagePath subpath).
Proof.
  intros Hrec. unfold resolveConditions.
  repeat match goal with
         | |- tame (if ?b then _ else _) => destruct b; [apply Hrec|]
         end.
  apply resolvePatterns_tame, Hrec.
Qed.

Lemma resolveExports_tame h exports packagePath subpath :
  tame (resolveExports h exports packagePath subpath).
Proof.
  induction exports as [| | b | n | s | items IH | props IH]
    using value_nested_ind.
  - apply tame_throw.
  - apply tame_throw.
  - apply resolveConditions_tame. intros k. apply tame_throw.
  - apply resolveConditions_tame. intros k. apply tame_throw.
  - apply tame_ret. discriminate.
  - cbn [resolveExports]. split.
    + rewrite trace_bindM. apply Forall_app. split.
      * apply findAvailable_trace.
      * destruct (result_of _) as [[]|]; try constructor.
        destruct (truthy _); constructor.
    + rewrite result_bindM.
      pose proof (findAvailable_throws h items packagePath) as Hthrow.
      destruct (result_of _) as [[]|]; try discriminate; [|exact Hthrow].
      destruct (truthy _); discriminate.
  - rewrite resolveExports_obj. apply resolveConditions_tame. intros k.
    apply (get_Forall (fun v => tame (resolveExports h v packagePath subpath))).
    + apply tame_throw.
    + exact IH.
Qed.

(** ** [tryPackage] *)

Lemma tryFields_result h json dir fields exts isMain field fieldValue :
  match List.find (accepted h json dir exts isMain) fields with
  | Some f =>
      result_of (tryFields h json dir fields exts isMain field fieldValue) =
      inl (resolved h json dir exts isMain f)
  | None =>
      exists left,
        result_of (tryFields h json dir fields exts isMain field fieldValue) =
        inr left
  end.
Proof.
  revert field fieldValue.
  induction fields as [|f rest IH]; intros field fieldValue.
  - cbn. eexists; reflexivity.
  - cbn [tryFields List.find]. rewrite result_bindW.
    change (field_accepted h f (result_of (tryField h dir (get f json) exts isMain)))
      with (accepted h json dir exts isMain f).
    destruct (accepted h json dir exts isMain f); [reflexivity|].
    apply IH.
Qed.

Lemma tryIndex_result h request dir exts isMain field fieldValue :
  result_of (tryIndex h request dir exts isMain field fieldValue) =
  if nonempty (index_found h dir exts isMain)
  then Return (VStr (index_found h dir exts isMain))
  else Throw (MAIN_NOT_FOUND request (dir +:+ sep h +:+ "package.json")).
Proof.
  unfold tryIndex. rewrite result_bindM, result_liftW.
  fold (index_found h dir exts isMain). unfold nonempty.
  destruct (String.eqb (index_found h dir exts isMain) ""); [reflexivity|].
  cbn [negb]. rewrite result_bindM.
  destruct (pendingDeprecation h); reflexivity.
Qed.

(** The result of [tryPackage], step by step. *)
Lemma tryPackage_result h request dir fields exts isMain :
  result_of (tryPackage h request dir fields exts isMain) =
  match readPackage h dir fields with
  | None => Return (VStr (index_found h dir exts isMain))
  | Some json =>
      match List.find (accepted h json dir exts isMain) fields with
      | Some f => Return (VStr (resolved h json dir exts isMain f))
      | None => after_fields h json request dir exts isMain
      end
  end.
Proof.
  unfold tryPackage. rewrite result_bindM, result_liftW.
  unfold probeReadPackage at 1. rewrite result_bindW. cbn [emit result_of snd retW].
  destruct (readPackage h dir fields) as [json|].
  - rewrite result_bindM, result_liftW.
    pose proof (tryFields_result h json dir fields exts isMain VUndef VUndef)
      as Hloop.
    destruct (List.find _ fields); [rewrite Hloop; reflexivity|].
    destruct Hloop as [[field fieldValue] ->].
    rewrite result_bindM. unfold after_fields.
    destruct (result_of (tryExportsField h json request dir)) as [[p|]|e];
      try reflexivity.
    apply tryIndex_result.
  - rewrite result_bindM, result_liftW. reflexivity.
Qed.

(** ** Which steps can emit a warning *)

Lemma quiet_nil : quiet [].
Proof. constructor. Qed.

Lemma quiet_app t1 t2 : quiet t1 -> quiet t2 -> quiet (t1 ++ t2).
Proof. intros H1 H2. apply Forall_app. split; assumption. Qed.

Lemma quiet_warns t : quiet t -> warns t = false.
Proof.
  induction 1 as [|e t He _ IH]; [reflexivity|].
  cbn. unfold is_warning. rewrite He. exact IH.
Qed.

Lemma warns_app t1 t2 : warns (t1 ++ t2) = warns t1 || warns t2.
Proof. apply existsb_app. Qed.

Lemma classify_quiet h p : quiet (trace_of (classify h p)).
Proof.
  unfold classify. destruct (_ || _).
  - rewrite trace_bindW. apply quiet_app; [repeat constructor|].
    destruct (result_of _); constructor.
  - repeat constructor.
Qed.

Lemma tryFilename_quiet h p isMain : quiet (trace_of (tryFilename h p isMain)).
Proof.
  unfold tryFilename. rewrite trace_bindW.
  apply quiet_app; [apply classify_quiet|].
  destruct (negb _); [constructor|].
  destruct (useRealpath_of h isMain); repeat constructor.
Qed.

Lemma tryExtensions_quiet h p exts isMain :
  quiet (trace_of (tryExtensions h p exts isMain)).
Proof.
  induction exts as [|ext rest IH]; [constructor|].
  cbn [tryExtensions]. rewrite trace_bindW.
  apply quiet_app; [apply tryFilename_quiet|].
  destruct (negb _); [constructor | exact IH].
Qed.

Lemma tryField_quiet h dir fieldPath exts isMain :
  quiet (trace_of (tryField h dir fieldPath exts isMain)).
Proof.
  destruct fieldPath; try constructor.
  cbn [tryField]. rewrite !trace_bindW.
  repeat apply quiet_app; try apply tryFilename_quiet; try constructor.
  - destruct (String.eqb _ _); [apply tryExtensions_quiet | constructor].
  - destruct (String.eqb _ _); [apply tryExtensions_quiet | constructor].
Qed.

Lemma tryFields_quiet h json dir fields exts isMain field fieldValue :
  quiet (trace_of (tryFields h json dir fields exts isMain field fieldValue)).
Proof.
  revert field fieldValue.
  induction fields as [|f rest IH]; intros field fieldValue; [constructor|].
  cbn [tryFields]. rewrite trace_bindW.
  apply quiet_app; [apply tryField_quiet|].
  destruct (field_accepted _ _ _); [constructor | apply IH].
Qed.

Lemma tryExportsField_quiet h json request dir :
  quiet (trace_of (tryExportsField h json request dir)).
Proof.
  unfold tryExportsField. destruct (truthy _); [|constructor].
  rewrite trace_bindM. apply quiet_app; [apply resolveExports_tame|].
  destruct (result_of _); [|constructor].
  destruct (_ && _); constructor.
Qed.

Lemma tryIndex_warns h request dir exts isMain field fieldValue :
  warns (trace_of (tryIndex h request dir exts isMain field fieldValue)) =
  nonempty (index_found h dir exts isMain) && pendingDeprecation h.
Proof.
  unfold tryIndex. rewrite trace_bindM, trace_liftW, result_liftW, warns_app.
  rewrite (quiet_warns _ (tryExtensions_quiet _ _ _ _)).
  fold (index_found h dir exts isMain). unfold nonempty.
  destruct (String.eqb (index_found h dir exts isMain) ""); [reflexivity|].
  cbn [negb orb andb]. rewrite trace_bindM.
  destruct (pendingDeprecation h); reflexivity.
Qed.

(** When [tryPackage] emits a warning, step by step. *)
Lemma tryPackage_warns h request dir fields exts isMain :
  warns (trace_of (tryPackage h request dir fields exts isMain)) =
  match readPackage h dir fields with
  | None => false
  | Some json =>
      match List.find (accepted h json dir exts isMain) fields with
      | Some _ => false
      | None =>
          match result_of (tryExportsField h json request dir) with
          | Return None =>
              nonempty (index_found h dir exts isMain) && pendingDeprecation h
          | _ => false
          end
      end
  end.
Proof.
  unfold tryPackage. rewrite trace_bindM, trace_liftW, result_liftW, warns_app.
  unfold probeReadPackage at 1 2. rewrite trace_bindW, result_bindW.
  cbn [emit result_of trace_of fst snd retW app warns existsb is_warning is_probe
       negb orb].
  destruct (readPackage h dir fields) as [json|].
  - rewrite trace_bindM, trace_liftW, result_liftW, warns_app.
    rewrite (quiet_warns _ (tryFields_quiet _ _ _ _ _ _ _ _)). cbn [orb].
    pose proof (tryFields_result h json dir fields exts isMain VUndef VUndef)
      as Hloop.
    destruct (List.find _ fields); [rewrite Hloop; reflexivity|].
    destruct Hloop as [[field fieldValue] ->].
    rewrite trace_bindM, warns_app.
    rewrite (quiet_warns _ (tryExportsField_quiet _ _ _ _)). cbn [orb].
    destruct (result_of (tryExportsField h json request dir)) as [[p|]|e];
      try reflexivity.
    apply tryIndex_warns.
  - rewrite trace_bindM, trace_liftW, result_liftW, warns_app.
    rewrite (quiet_warns _ (tryExtensions_quiet _ _ _ _)). reflexivity.
Qed.

(** The steps that follow the loop over the fields, spelled out: the
    exports declaration is resolved when it is truthy, its result is
    returned unless it is [""] or an [.mjs] file, and [dir/index] comes
    last. *)
Lemma after_fields_spelled_out h json request dir exts isMain :
  after_fields h json request dir exts isMain =
  let index :=
    if nonempty (index_found h dir exts isMain)
    then Return (VStr (index_found h dir exts isMain))
    else Throw (MAIN_NOT_FOUND request (dir +:+ sep h +:+ "package.json")) in
  if truthy (get "exports" json) then
    match result_of (resolveExports h (get "exports" json) dir
                       (JS.substring_from request (JS.length dir + 1))) with
    | Return foundPath =>
        if negb (is_empty_string foundPath) && negb (isExtMJS h foundPath)
        then Return foundPath
        else index
    | Throw e => Throw e
    end
  else index.
Proof.
  unfold after_fields, tryExportsField.
  destruct (truthy (get "exports" json)); [|reflexivity].
  rewrite result_bindM.
  destruct (result_of (resolveExports _ _ _ _)) as [foundPath|e]; [|reflexivity].
  destruct (negb (is_empty_string foundPath) && negb (isExtMJS h foundPath));
    reflexivity.
Qed.

(** With a descriptor, [tryPackage] walks the fields in caller order
    and returns what the first taken field resolves to, a field being
    taken exactly when it resolves and is literally ["main"] or does not
    resolve to an [.mjs] file; when no field is taken the result is that of
    the steps that follow the loop.  A field other than ["main"] that
    resolves to an [.mjs] file is never taken. *)
Lemma tryPackage_fields_in_caller_order
      (h : Host) (request dir : string) (fields exts : list string)
      (isMain : bool) (json : list (string * value)) :
  readPackage h dir fields = Some json ->
  result_of (tryPackage h request dir fields exts isMain) =
  match List.find
          (fun f =>
             nonempty (resolved h json dir exts isMain f) &&
             (String.eqb f "main" ||
              negb (isExtMJS h (VStr (resolved h json dir exts isMain f)))))
          fields with
  | Some f => Return (VStr (resolved h json dir exts isMain f))
  | None => after_fields h json request dir exts isMain
  end /\
  (forall f, f <> "main" ->
             isExtMJS h (VStr (resolved h json dir exts isMain f)) = true ->
             accepted h json dir exts isMain f = false).
Proof.
  intros Hread. split.
  - rewrite tryPackage_result, Hread. reflexivity.
  - intros f Hf Hmjs. unfold accepted. rewrite Hmjs.
    destruct (String.eqb_spec f "main"); [contradiction|].
    apply andb_false_r.
Qed.

(** The field ["module"] of [json_dual] resolves to an [.mjs] file and is
    passed over for ["main"]. *)
Example module_passed_over_for_main :
  readPackage (Posix.host disk_dual true false) "/nm/dual" ["module"; "main"] =
    Some json_dual /\
  result_of (tryPackage (Posix.host disk_dual true false) "dual" "/nm/dual"
                        ["module"; "main"] [".js"] false) =
    Return (VStr "/nm/dual/cjs.js").
Proof.
  split; [reflexivity|].
  rewrite (proj1 (tryPackage_fields_in_caller_order
                    (Posix.host disk_dual true false) "dual" "/nm/dual"
                    ["module"; "main"] [".js"] false json_dual eq_refl)).
  vm_compute. reflexivity.
Qed.

(** C5 on [{"module": "./esm.mjs", "exports": {"import": "./esm.mjs"}}]
    with an [index.js] on the disk and the fields [module] and [main]:
    the field [module] resolves to [/nm/pkg/esm.mjs] and is not taken,
    [main] is absent, the exports declaration resolves to nothing, and
    [tryPackage] returns [null] where the walk was to go on to
    [/nm/pkg/index.js]; the same happens to [findPath]. *)
Theorem C5_rejected_mjs_field_ends_in_null :
  let h := Posix.host disk_module_import true false in
  readPackage h "/nm/pkg" ["module"; "main"] = Some json_module_import /\
  resolved h json_module_import "/nm/pkg" [".js"] false "module" =
    "/nm/pkg/esm.mjs" /\
  List.find (accepted h json_module_import "/nm/pkg" [".js"] false)
            ["module"; "main"] = None /\
  result_of (resolveExports h (get "exports" json_module_import) "/nm/pkg" "") =
    Return VNull /\
  index_found h "/nm/pkg" [".js"] false = "/nm/pkg/index.js" /\
  result_of (tryPackage h "pkg" "/nm/pkg" ["module"; "main"] [".js"] false) =
    Return VNull /\
  result_of (fst (findPath h "pkg" ["/nm"] false (Some ["module"; "main"])
                           (Some [".js"]) ∅)) = Return VNull.
Proof. vm_compute. repeat split; reflexivity. Qed.

(** The field ["module"] alone resolves to an [.mjs] file, which is not
    taken; there is no exports declaration and no index file. *)
Example mjs_field_is_skipped :
  resolved (Posix.host disk_dual true false) json_dual "/nm/dual" [".js"] false
           "module" = "/nm/dual/esm.mjs" /\
  result_of (tryPackage (Posix.host disk_dual true false) "dual" "/nm/dual"
                        ["module"] [".js"] false) =
    Throw (MAIN_NOT_FOUND "dual" "/nm/dual/package.json").
Proof. vm_compute. split; reflexivity. Qed.

(** C7, as the specification words it, fails: with [{"main":
    "./missing.js"}], an [index.js] and the flag set, the warning is
    emitted although there is no field other than ["main"] at all. *)
Lemma C7_warning_without_malformed_field : ~ warning_iff_malformed_field.
Proof.
  intros Hclaim.
  destruct (proj1 (Hclaim (Posix.host disk_old true true) "old" "/nm/old"
                          ["main"] [".js"] false))
    as (json & Hread & _ & (f & Hin & Hne & _) & _).
  - vm_compute. reflexivity.
  - assert (Some json_old = Some json) as [= <-] by exact Hread.
    destruct Hin as [[<-|[]]|[<-|[]]]; apply Hne; reflexivity.
Qed.

(** C7, amended.  The warning is emitted exactly when the directory has a
    descriptor, neither a field nor the exports declaration gave the
    result, [dir/index] did, and the flag is set; whether a field was
    malformed plays no part.  The flag never changes what is returned. *)
Theorem C7_warning_iff_index_fallback
        (h : Host) (request dir : string) (fields exts : list string)
        (isMain : bool) :
  (warns (trace_of (tryPackage h request dir fields exts isMain)) = true <->
   exists json,
     readPackage h dir fields = Some json /\
     via_index_only h json request dir fields exts isMain /\
     pendingDeprecation h = true) /\
  (forall b,
      result_of (tryPackage (with_pendingDeprecation b h) request dir fields
                            exts isMain) =
      result_of (tryPackage h request dir fields exts isMain)).
Proof.
  split.
  - rewrite tryPackage_warns. unfold via_index_only. split.
    + destruct (readPackage h dir fields) as [json|]; [|discriminate].
      destruct (List.find _ fields) eqn:Hfind; [discriminate|].
      destruct (result_of (tryExportsField h json request dir))
        as [[p|]|e] eqn:Hexports; try discriminate.
      intros [Hidx Hflag]%andb_true_iff.
      exists json. split; [reflexivity|]. split; [|exact Hflag].
      split; [exact Hfind|]. split; [exact Hexports|].
      apply nonempty_true, Hidx.
    + intros (json & -> & (-> & -> & Hidx) & ->).
      apply nonempty_true in Hidx. rewrite Hidx. reflexivity.
  - intros b. rewrite !tryPackage_result. reflexivity.
Qed.

(** The warning for a ["main"] that is a string naming no file: the
    whole run of [tryPackage], trace and result. *)
Example warning_on_unresolved_main :
  tryPackage (Posix.host disk_old true true) "old" "/nm/old" ["main"] [".js"]
             false =
  ([ProbeReadPackage "/nm/old" ["main"];
    ProbeStatSync "/nm/old/missing.js";
    ProbeStatSync "/nm/old/missing.js.js";
    ProbeStatSync "/nm/old/missing.js/index.js";
    ProbeStatSync "/nm/old/index.js";
    Warning ("Invalid 'main' field in '/nm/old/package.json' of " +:+
             "'./missing.js'. Please either fix or report it to the " +:+
             "module author")
            "DeprecationWarning" "DEP0128"],
   Return (VStr "/nm/old/index.js")).
Proof. vm_compute. reflexivity. Qed.

(** ** The conditions of an exports mapping *)

(** C6, as the specification words it, fails: in [{"require": [],
    "default": "./x.js"}] the condition [require] is present and yields
    nothing, [default] is present and yields a path, and [resolveExports]
    returns the failure of [require]. *)
Lemma C6_first_truthy_condition_is_final : ~ precedence_by_first_result.
Proof.
  intros Hclaim.
  specialize (Hclaim (Posix.host disk_feature true false)
                     [("require", VArr []); ("default", VStr "./x.js")]
                     "/nm/pkg" "" "default" eq_refl).
  vm_compute in Hclaim. discriminate Hclaim.
Qed.

(** C6, amended.  A mapping is resolved by the first of [require],
    [node], [default] and (for an empty subpath) ["."] whose value is
    truthy: the result is whatever the recursion into that value gives,
    also when it gives nothing, and no later condition is looked at.
    Only when none of them has a truthy value are the remaining keys
    taken as patterns. *)
Theorem C6_condition_precedence
        (h : Host) (props : list (string * value)) (packagePath subpath : string) :
  resolveExports h (VObj props) packagePath subpath =
  match List.find (fun k => truthy (get k props))
                  (applicable_conditions subpath) with
  | Some k => resolveExports h (get k props) packagePath subpath
  | None =>
      resolvePatterns h props
        (fun k => resolveExports h (get k props) packagePath subpath)
        packagePath subpath
  end.
Proof.
  rewrite resolveExports_obj. unfold resolveConditions, applicable_conditions.
  cbn [app List.find].
  destruct (truthy (get "require" props)); [reflexivity|].
  destruct (truthy (get "node" props)); [reflexivity|].
  destruct (truthy (get "default" props)); [reflexivity|].
  destruct (String.eqb subpath ""); cbn [List.find].
  - rewrite andb_true_r. destruct (truthy (get "." props)); reflexivity.
  - rewrite andb_false_r. reflexivity.
Qed.

(** The failure of the first truthy condition is the result. *)
Example require_empty_list_wins (h : Host) (packagePath : string) :
  resolveExports h exports_require_empty packagePath "" = retM VNull /\
  resolveExports h (prop exports_require_empty "default") packagePath "" =
    retM (VStr (join h packagePath "./x.js")).
Proof. split; reflexivity. Qed.

(** ** Keys that are neither conditions nor patterns *)

Lemma get_absent k props : ~ In k (map fst props) -> get k props = VUndef.
Proof.
  induction props as [|[k' v] rest IH]; cbn; [reflexivity|].
  intros Hnot. destruct (String.eqb_spec k' k) as [->|_].
  - exfalso. apply Hnot. left. reflexivity.
  - apply IH. intros Hin. apply Hnot. right. exact Hin.
Qed.

Lemma conditions_of_well_known props :
  Forall (fun k => includes wellKnownConditions k = true) (map fst props) ->
  conditions_of props = [].
Proof.
  intros Hall. unfold conditions_of.
  replace (List.filter _ (map fst props)) with (@nil string); [reflexivity|].
  symmetry. induction Hall as [|k ks Hk _ IH]; [reflexivity|].
  cbn [List.filter]. rewrite Hk. exact IH.
Qed.

(** A mapping all of whose keys are ["import"] or ["."], the latter not
    applying, resolves to nothing and probes nothing. *)
Lemma resolveExports_import_only h props packagePath subpath :
  Forall (fun k => k = "import" \/ k = ".") (map fst props) ->
  truthy (get "." props) && String.eqb subpath "" = false ->
  resolveExports h (VObj props) packagePath subpath = retM VNull.
Proof.
  intros Hkeys Hdot. rewrite resolveExports_obj. unfold resolveConditions.
  assert (Habsent : forall k, k <> "import" -> k <> "." -> get k props = VUndef).
  { intros k H1 H2. apply get_absent. intros Hin.
    rewrite List.Forall_forall in Hkeys. destruct (Hkeys k Hin); contradiction. }
  rewrite !Habsent by discriminate. cbn [truthy]. rewrite Hdot.
  unfold resolvePatterns. rewrite conditions_of_well_known.
  - destruct (negb _); reflexivity.
  - eapply List.Forall_impl; [|exact Hkeys].
    intros k [->| ->]; reflexivity.
Qed.

(** ** What [tryPackage] returns and throws *)

Lemma tryExportsField_defined h json request dir :
  match result_of (tryExportsField h json request dir) with
  | Return p => p <> Some VUndef
  | Throw e => e = TypeError
  end.
Proof.
  unfold tryExportsField. destruct (truthy _); [|discriminate].
  rewrite result_bindM.
  pose proof (proj2 (resolveExports_tame h (get "exports" json) dir
                       (JS.substring_from request (JS.length dir + 1)))) as Hdef.
  destruct (result_of (resolveExports _ _ _ _)) as [v|e]; [|exact Hdef].
  destruct (_ && _); [|discriminate].
  cbn. congruence.
Qed.

Lemma tryPackage_defined h request dir fields exts isMain :
  result_of (tryPackage h request dir fields exts isMain) <> Return VUndef.
Proof.
  rewrite tryPackage_result.
  destruct (readPackage h dir fields) as [json|]; [|discriminate].
  destruct (List.find _ fields); [discriminate|].
  unfold after_fields.
  pose proof (tryExportsField_defined h json request dir) as Hdef.
  destruct (result_of (tryExportsField h json request dir)) as [[p|]|e];
    try discriminate.
  - congruence.
  - destruct (nonempty _); discriminate.
Qed.

(** [MAIN_NOT_FOUND] comes from the index fallback of a directory that
    has a descriptor, and carries the request and the path of the
    descriptor. *)
Lemma main_not_found_only_with_descriptor h request dir fields exts isMain r p :
  result_of (tryPackage h request dir fields exts isMain) =
    Throw (MAIN_NOT_FOUND r p) ->
  r = request /\ p = dir +:+ sep h +:+ "package.json" /\
  exists json,
    readPackage h dir fields = Some json /\
    List.find (accepted h json dir exts isMain) fields = None /\
    result_of (tryExportsField h json request dir) = Return None /\
    index_found h dir exts isMain = "".
Proof.
  rewrite tryPackage_result.
  destruct (readPackage h dir fields) as [json|]; [|discriminate].
  destruct (List.find _ fields) eqn:Hfind; [discriminate|].
  unfold after_fields.
  pose proof (tryExportsField_defined h json request dir) as Hdef.
  destruct (result_of (tryExportsField h json request dir))
    as [[q|]|e] eqn:Hexports; try discriminate.
  - destruct (nonempty _) eqn:Hidx; [discriminate|].
    intros [= <- <-]. repeat split.
    exists json. repeat split; try assumption.
    apply nonempty_false, Hidx.
  - subst e. discriminate.
Qed.

(** Without a descriptor nothing is thrown: the result is what
    [dir/index] resolves to, [""] included. *)
Lemma no_descriptor_no_error h request dir fields exts isMain :
  readPackage h dir fields = None ->
  result_of (tryPackage h request dir fields exts isMain) =
  Return (VStr (index_found h dir exts isMain)).
Proof. intros Hread. rewrite tryPackage_result, Hread. reflexivity. Qed.

(** ** A failed exports resolution *)

(** [resolveExports] reports a failure as [null]; the test of line 308
    compares with [""], so that a failure passes it as soon as [isExtMJS]
    answers [false] on [null], and [null] is what [tryPackage] returns:
    the index fallback of line 315 and the error of line 318 are not
    reached. *)
Lemma tryPackage_failed_exports h request dir fields exts isMain json :
  readPackage h dir fields = Some json ->
  List.find (accepted h json dir exts isMain) fields = None ->
  truthy (get "exports" json) = true ->
  result_of (resolveExports h (get "exports" json) dir
               (JS.substring_from request (JS.length dir + 1))) = Return VNull ->
  isExtMJS h VNull = false ->
  result_of (tryPackage h request dir fields exts isMain) = Return VNull.
Proof.
  intros Hread Hfind Hexports Hnull Hmjs.
  rewrite tryPackage_result, Hread, Hfind. unfold after_fields, tryExportsField.
  rewrite Hexports, result_bindM, Hnull. cbn [is_empty_string negb andb].
  rewrite Hmjs. reflexivity.
Qed.

(** C1 on [{"exports": {"./feature": "./dist/feature.js"}}] with an
    [index.js] on the disk: for the undeclared subpath [other] the exports
    resolution fails, and [tryPackage] returns [null] after reading the
    descriptor only, where [/nm/pkg/index.js] was to be found; the same
    happens to [findPath] for the request [pkg]. *)
Theorem C1_failed_exports_returns_null :
  let h := Posix.host disk_feature true false in
  result_of (resolveExports h exports_feature "/nm/pkg" "other") = Return VNull /\
  index_found h "/nm/pkg" [".js"] false = "/nm/pkg/index.js" /\
  tryPackage h "/nm/pkg/other" "/nm/pkg" ["main"] [".js"] false =
    ([ProbeReadPackage "/nm/pkg" ["main"]], Return VNull) /\
  result_of (fst (findPath h "pkg" ["/nm"] false None None ∅)) = Return VNull.
Proof. vm_compute. repeat split; reflexivity. Qed.

(** C4 on the same package without an index file: the directory has a
    descriptor, no field, no exports resolution and no index probe gives a
    path, and [tryPackage] returns [null] where [MAIN_NOT_FOUND] was to be
    thrown. *)
Theorem C4_failed_exports_hides_main_not_found :
  let h := Posix.host disk_feature_no_index true false in
  readPackage h "/nm/pkg" ["main"] = Some [("exports", exports_feature)] /\
  List.find (accepted h [("exports", exports_feature)] "/nm/pkg" [".js"] false)
            ["main"] = None /\
  result_of (resolveExports h exports_feature "/nm/pkg" "other") = Return VNull /\
  index_found h "/nm/pkg" [".js"] false = "" /\
  result_of (tryPackage h "/nm/pkg/other" "/nm/pkg" ["main"] [".js"] false) =
    Return VNull /\
  result_of (tryPackage h "/nm/pkg/other" "/nm/pkg" ["main"] [".js"] false) <>
    Throw (MAIN_NOT_FOUND "/nm/pkg/other" "/nm/pkg/package.json").
Proof. vm_compute. repeat split; try reflexivity. discriminate. Qed.

(** C10 on [{"exports": {"import": "./esm.mjs"}}] with an [index.js] on
    the disk: the mapping resolves to nothing, as the claim says, and
    [tryPackage] returns [null] where [/nm/pkg/index.js] was to be
    found. *)
Theorem C10_import_only_returns_null :
  let h := Posix.host disk_import_only true false in
  (forall subpath,
      resolveExports h exports_import_only "/nm/pkg" subpath = retM VNull) /\
  index_found h "/nm/pkg" [".js"] false = "/nm/pkg/index.js" /\
  result_of (tryPackage h "pkg" "/nm/pkg" ["main"] [".js"] false) = Return VNull /\
  result_of (fst (findPath h "pkg" ["/nm"] false None None ∅)) = Return VNull.
Proof.
  split; [|vm_compute; repeat split; reflexivity].
  intros subpath. apply resolveExports_import_only.
  - repeat constructor.
  - reflexivity.
Qed.

(** ** Wildcard patterns *)

(** C2 on [{"./lib/*": "./dist/*.js"}] and the subpath [lib/foo]: the key
    splits into the prefix ["./lib/"] and the empty suffix [""], the test
    of line 387 takes the empty suffix for "no suffix", and the value is
    joined with the directory as it stands, with its ["*"]. *)
Theorem C2_trailing_wildcard_not_substituted :
  (forall h dir,
      resolveExports h exports_wildcard dir "lib/foo" =
      retM (VStr (join h dir "./dist/*.js"))) /\
  (let h := Posix.host disk_wildcard true false in
   resolveExports h exports_wildcard "/nm/pkg" "lib/foo" =
     retM (VStr "/nm/pkg/dist/*.js") /\
   result_of (tryPackage h "/nm/pkg/lib/foo" "/nm/pkg" ["main"] [".js"] false) =
     Return (VStr "/nm/pkg/dist/*.js") /\
   join h "/nm/pkg" "./dist/*.js" <> "/nm/pkg/dist/foo.js").
Proof.
  split; [intros h dir; reflexivity|].
  vm_compute. repeat split; try reflexivity. discriminate.
Qed.

(** With a suffix after the ["*"] the middle of the subpath is put in. *)
Example wildcard_with_suffix (h : Host) (dir : string) :
  resolveExports h (VObj [("./lib/*.js", VStr "./dist/*.cjs")]) dir "lib/foo.js" =
  retM (VStr (join h dir "./dist/foo.cjs")).
Proof. reflexivity. Qed.

(** A pattern with a suffix after its ["*"] and a string for value: the
    part of ["./" + subpath] between prefix and suffix replaces the first
    ["*"] of the value. *)
Lemma resolvePatterns_substitutes h props recur packagePath subpath c suffix target :
  subpath <> "" ->
  List.find (condition_matches ("./" +:+ subpath)) (conditions_of props) = Some c ->
  endsWith c = Some suffix -> suffix <> "" ->
  cexports c = VStr target ->
  resolvePatterns h props recur packagePath subpath =
  retM (VStr (join h packagePath
                (JS.replace_star target
                   (JS.substring ("./" +:+ subpath)
                      (JS.length (startsWith c))
                      (JS.length ("./" +:+ subpath) - JS.length suffix))))).
Proof.
  intros Hsub Hfind Hends Hsuffix Hvalue. unfold resolvePatterns.
  apply nonempty_true in Hsub. unfold nonempty in Hsub. rewrite Hsub.
  rewrite Hfind, Hvalue, Hends. cbn [endsWith_falsy endsWith_length].
  apply nonempty_true in Hsuffix. unfold nonempty in Hsuffix. rewrite Hsuffix.
  reflexivity.
Qed.

(** The trailing wildcard reached through [findPath]: the request
    [./././../lib/foo] from [/x] names the directory [/lib/foo], and what
    is left of the request past the length of that name is [lib/foo]. *)
Example trailing_wildcard_from_findPath :
  result_of (fst (findPath (Posix.host disk_wildcard_lib true false)
                           "./././../lib/foo" ["/x"] false None None ∅)) =
  Return (VStr "/lib/foo/dist/*.js").
Proof. vm_compute. reflexivity. Qed.

(** ** The cache of [findPath] *)

Lemma tryCandidate_defined h curPath request isAbs useRealpath trailingSlash
      isMain fields exts v fields' exts' :
  result_of (tryCandidate h curPath request isAbs useRealpath trailingSlash
                          isMain fields exts) = Return (v, fields', exts') ->
  v <> VUndef.
Proof.
  unfold tryCandidate. rewrite result_bindM, result_liftW.
  destruct (result_of (if negb isAbs then _ else _));
    [cbn; intros [= <- _ _]; discriminate|].
  rewrite result_bindM, result_liftW.
  set (thePath0 := result_of (if useRealpath then _ else _)).
  destruct (useRealpath && (thePath0 =? "")%string);
    [cbn; intros [= <- _ _]; discriminate|].
  set (thePath := if isAbs then _ else _).
  rewrite result_bindM, result_liftW, result_bindM, result_liftW.
  destruct (result_of (if negb trailingSlash then _ else _)) as [foundPath exts0].
  destruct ((_ =? 1) && _).
  - rewrite result_bindM.
    pose proof (tryPackage_defined h request thePath (default_fields fields)
                                   (default_exts h exts0) isMain) as Hdef.
    destruct (result_of (tryPackage _ _ _ _ _ _)) as [p|e]; [|discriminate].
    cbn. intros [= <- _ _]. congruence.
  - cbn. intros [= <- _ _]. discriminate.
Qed.

Lemma searchPaths_defined h paths request isAbs useRealpath trailingSlash
      isMain fields exts v :
  result_of (searchPaths h paths request isAbs useRealpath trailingSlash
                         isMain fields exts) = Return (Some v) ->
  v <> VUndef.
Proof.
  revert fields exts.
  induction paths as [|curPath rest IH]; intros fields exts; [discriminate|].
  cbn [searchPaths]. rewrite result_bindM.
  destruct (result_of (tryCandidate _ _ _ _ _ _ _ _ _))
    as [[[foundPath fields'] exts']|e] eqn:Hcand; [|discriminate].
  destruct (negb _).
  - cbn. intros [= <-]. eapply tryCandidate_defined, Hcand.
  - apply IH.
Qed.

Lemma searchPaths_found h paths request isAbs useRealpath trailingSlash
      isMain fields exts v :
  result_of (searchPaths h paths request isAbs useRealpath trailingSlash
                         isMain fields exts) = Return (Some v) ->
  is_empty_string v = false.
Proof.
  revert fields exts.
  induction paths as [|curPath rest IH]; intros fields exts; [discriminate|].
  cbn [searchPaths]. rewrite result_bindM.
  destruct (result_of (tryCandidate _ _ _ _ _ _ _ _ _))
    as [[[foundPath fields'] exts']|e]; [|discriminate].
  destruct (is_empty_string foundPath) eqn:Hempty; cbn [negb].
  - apply IH.
  - cbn. intros [= <-]. exact Hempty.
Qed.

(** What a call leaves in the cache: the result under the key of the
    call when a path was found, nothing otherwise. *)
Lemma findPath_uncached_cases h key request paths isMain fields exts cache :
  let call := findPath_uncached h key request paths isMain fields exts cache in
  (exists v, result_of (fst call) = Return v /\ v <> VUndef /\
             is_empty_string v = false /\ snd call = <[key := v]> cache) \/
  ((result_of (fst call) = Return (VStr "") \/
    exists e, result_of (fst call) = Throw e) /\ snd call = cache).
Proof.
  unfold findPath_uncached.
  destruct (negb _ && _); [right; split; [left|]; reflexivity|].
  destruct (if isAbsolute h request then _ else _) as [paths' request'].
  destruct (result_of (searchPaths _ _ _ _ _ _ _ _ _)) as [[v|]|e] eqn:Hrun.
  - left. exists v. repeat split.
    + eapply searchPaths_defined, Hrun.
    + eapply searchPaths_found, Hrun.
  - right. split; [left|]; reflexivity.
  - right. split; [right; exists e|]; reflexivity.
Qed.

Lemma findPath_hit h request paths isMain fields exts cache v :
  cache !! cacheKey request paths isMain fields exts = Some v ->
  v <> VUndef ->
  findPath h request paths isMain fields exts cache = (retM v, cache).
Proof.
  intros Hget Hv. unfold findPath. rewrite Hget. cbn [default].
  destruct v; try reflexivity. contradiction.
Qed.

(** C3, as the specification words it, fails: nothing named [nothing] is
    in [/a]; the first call probes the disk and returns [""], leaves the
    cache empty, and the second call probes the disk again. *)
Lemma C3_not_found_is_probed_again : ~ second_call_is_cache_hit.
Proof.
  intros Hclaim.
  destruct (Hclaim (Posix.host disk_comma true false) "nothing" ["/a"] false
                   None None ∅) as [_ Hprobes].
  vm_compute in Hprobes. discriminate Hprobes.
Qed.

(** The second call after a first call that went past the cache. *)
Lemma second_call_after_miss h request paths isMain fields exts cache :
  findPath h request paths isMain fields exts cache =
  findPath_uncached h (cacheKey request paths isMain fields exts)
                    request paths isMain fields exts cache ->
  let first := findPath h request paths isMain fields exts cache in
  let second := findPath h request paths isMain fields exts (snd first) in
  result_of (fst second) = result_of (fst first) /\
  match result_of (fst first) with
  | Return v =>
      if is_empty_string v
      then snd first = cache /\ second = first
      else fst second = ([], Return v) /\ snd second = snd first
  | Throw e => snd first = cache /\ second = first
  end.
Proof.
  intros Hfirst. cbv zeta. rewrite Hfirst.
  destruct (findPath_uncached_cases h (cacheKey request paths isMain fields exts)
              request paths isMain fields exts cache)
    as [(v & Hres & Hv & Hempty & Hcache)|[[Hres|[e Hres]] Hcache]].
  - rewrite Hcache, Hres, Hempty.
    rewrite (findPath_hit h request paths isMain fields exts _ v)
      by (try apply lookup_insert_eq; assumption).
    repeat split; reflexivity.
  - rewrite Hcache, Hres, Hfirst, Hres. cbn [is_empty_string String.eqb].
    repeat split; reflexivity.
  - rewrite Hcache, Hres, Hfirst, Hres. repeat split; reflexivity.
Qed.

(** C3, amended.  Two calls with the same arguments return the same.
    When the first call returned a path, it is in the cache and the second
    call returns it without any probe or warning and leaves the cache as
    it is.  When the first call returned [""] or threw, it left the cache
    as it was, and the second call does all of the first again. *)
Theorem C3_found_results_are_cached
        (h : Host) (request : string) (paths : list string) (isMain : bool)
        (fields exts : option (list string)) (cache : gmap string value) :
  let first := findPath h request paths isMain fields exts cache in
  let second := findPath h request paths isMain fields exts (snd first) in
  result_of (fst second) = result_of (fst first) /\
  match result_of (fst first) with
  | Return v =>
      if is_empty_string v
      then snd first = cache /\ second = first
      else fst second = ([], Return v) /\ snd second = snd first
  | Throw e => snd first = cache /\ second = first
  end.
Proof.
  destruct (cache !! cacheKey request paths isMain fields exts) as [v|] eqn:Hget.
  - assert (Hcases : v = VUndef \/ v <> VUndef)
      by (destruct v; first [left; reflexivity | right; discriminate]).
    destruct Hcases as [->|Hv].
    + (* an entry holding [undefined] reads as no entry *)
      apply second_call_after_miss. unfold findPath. rewrite Hget. reflexivity.
    + cbv zeta.
      rewrite (findPath_hit h request paths isMain fields exts cache v Hget Hv).
      cbn [fst snd result_of retM retW].
      rewrite (findPath_hit h request paths isMain fields exts cache v Hget Hv).
      split; [reflexivity|].
      destruct (is_empty_string v); repeat split; reflexivity.
  - apply second_call_after_miss. unfold findPath. rewrite Hget. reflexivity.
Qed.

(** * Further properties of the code *)

(** ** The cache over several calls *)

Lemma findPath_miss h request paths isMain fields exts cache :
  default VUndef (cache !! cacheKey request paths isMain fields exts) = VUndef ->
  findPath h request paths isMain fields exts cache =
  findPath_uncached h (cacheKey request paths isMain fields exts)
                    request paths isMain fields exts cache.
Proof. intros Hmiss. unfold findPath. rewrite Hmiss. reflexivity. Qed.

Lemma findPath_hit_or_miss h request paths isMain fields exts cache :
  (exists v, cache !! cacheKey request paths isMain fields exts = Some v /\
             v <> VUndef /\
             findPath h request paths isMain fields exts cache = (retM v, cache)) \/
  (default VUndef (cache !! cacheKey request paths isMain fields exts) = VUndef /\
   findPath h request paths isMain fields exts cache =
   findPath_uncached h (cacheKey request paths isMain fields exts)
                     request paths isMain fields exts cache).
Proof.
  destruct (cache !! cacheKey request paths isMain fields exts) as [v|] eqn:Hget.
  - assert (Hcases : v = VUndef \/ v <> VUndef)
      by (destruct v; first [left; reflexivity | right; discriminate]).
    destruct Hcases as [->|Hv].
    + right. split; [reflexivity|]. apply findPath_miss. rewrite Hget. reflexivity.
    + left. exists v. repeat split; try assumption.
      apply findPath_hit; assumption.
  - right. split; [reflexivity|]. apply findPath_miss. rewrite Hget. reflexivity.
Qed.

(** X1.  A call never removes or changes an entry of the cache: what
    was stored under any key is still stored under it afterwards. *)
Theorem findPath_keeps_entries
        (h : Host) (request : string) (paths : list string) (isMain : bool)
        (fields exts : option (list string)) (cache : gmap string value)
        (k : string) (v : value) :
  cache !! k = Some v -> v <> VUndef ->
  snd (findPath h request paths isMain fields exts cache) !! k = Some v.
Proof.
  intros Hk Hv.
  destruct (findPath_hit_or_miss h request paths isMain fields exts cache)
    as [(w & _ & _ & ->)|[Hmiss ->]]; [exact Hk|].
  destruct (findPath_uncached_cases h (cacheKey request paths isMain fields exts)
              request paths isMain fields exts cache)
    as [(w & _ & _ & _ & ->)|[_ ->]]; [|exact Hk].
  destruct (decide (cacheKey request paths isMain fields exts = k)) as [<-|Hne].
  - rewrite Hk in Hmiss. cbn in Hmiss. contradiction.
  - rewrite lookup_insert_ne by exact Hne. exact Hk.
Qed.

Lemma findPath_keeps_entries_witness :
  let h := Posix.host disk_comma true false in
  let cache : gmap string value := {[ "k" := VStr "/kept" ]} in
  cache !! "k" = Some (VStr "/kept") /\ VStr "/kept" <> VUndef /\
  snd (findPath h "x.js" ["/a,/b"] false None None cache) !! "k" =
    Some (VStr "/kept").
Proof.
  cbv zeta.
  assert (H1 : ({[ "k" := VStr "/kept" ]} : gmap string value) !! "k" =
               Some (VStr "/kept")) by reflexivity.
  assert (H2 : VStr "/kept" <> VUndef) by discriminate.
  split; [exact H1 | split; [exact H2 |]].
  exact (findPath_keeps_entries (Posix.host disk_comma true false) "x.js"
           ["/a,/b"] false None None _ "k" (VStr "/kept") H1 H2).
Defined.

(** X2.  A call stores found paths only: when no entry of the cache is
    [undefined] or [""], none is after the call. *)
Theorem findPath_stores_found_paths_only
        (h : Host) (request : string) (paths : list string) (isMain : bool)
        (fields exts : option (list string)) (cache : gmap string value) :
  cache_sound cache ->
  cache_sound (snd (findPath h request paths isMain fields exts cache)).
Proof.
  intros Hsound.
  destruct (findPath_hit_or_miss h request paths isMain fields exts cache)
    as [(w & _ & _ & ->)|[Hmiss ->]]; [exact Hsound|].
  destruct (findPath_uncached_cases h (cacheKey request paths isMain fields exts)
              request paths isMain fields exts cache)
    as [(w & _ & Hw & Hempty & ->)|[_ ->]]; [|exact Hsound].
  intros k v. rewrite lookup_insert. case_decide.
  - intros [= <-]. split; assumption.
  - apply Hsound.
Qed.

Lemma cache_sound_empty : cache_sound ∅.
Proof. intros k v. rewrite lookup_empty. discriminate. Qed.

Lemma findPath_stores_found_paths_only_witness :
  cache_sound ∅ /\
  cache_sound (snd (findPath (Posix.host disk_comma true false) "x.js"
                             ["/a,/b"] false None None ∅)).
Proof.
  split; [exact cache_sound_empty|].
  exact (findPath_stores_found_paths_only (Posix.host disk_comma true false)
           "x.js" ["/a,/b"] false None None ∅ cache_sound_empty).
Defined.

(** X3.  The cache is never invalidated: once a call has returned a
    path, a later call with the same arguments returns that path without
    a probe on any host, whatever has become of the disk, of the
    descriptors and of the flags. *)
Theorem findPath_answers_from_cache_on_any_host
        (h h' : Host) (request : string) (paths : list string) (isMain : bool)
        (fields exts : option (list string)) (cache : gmap string value)
        (v : value) :
  result_of (fst (findPath h request paths isMain fields exts cache)) = Return v ->
  is_empty_string v = false ->
  findPath h' request paths isMain fields exts
           (snd (findPath h request paths isMain fields exts cache)) =
  (retM v, snd (findPath h request paths isMain fields exts cache)).
Proof.
  intros Hres Hfound.
  destruct (findPath_hit_or_miss h request paths isMain fields exts cache)
    as [(w & Hget & Hw & Hcall)|[Hmiss Hcall]]; rewrite Hcall in *.
  - cbn in Hres. injection Hres as <-. cbn [snd].
    apply findPath_hit; assumption.
  - destruct (findPath_uncached_cases h (cacheKey request paths isMain fields exts)
                request paths isMain fields exts cache)
      as [(w & Hw & Hdef & _ & Hcache)|[[Hw|[e Hw]] _]];
      rewrite Hw in Hres.
    + injection Hres as <-. rewrite Hcache.
      apply findPath_hit; [apply lookup_insert_eq | exact Hdef].
    + injection Hres as <-. discriminate Hfound.
    + discriminate Hres.
Qed.

Lemma findPath_answers_from_cache_on_any_host_witness :
  let h := Posix.host disk_comma true false in
  let h' := Posix.host disk_old false true in
  result_of (fst (findPath h "x.js" ["/a,/b"] false None None ∅)) =
    Return (VStr "/a,/b/x.js") /\
  is_empty_string (VStr "/a,/b/x.js") = false /\
  fst (findPath h' "x.js" ["/a,/b"] false None None
                (snd (findPath h "x.js" ["/a,/b"] false None None ∅))) =
    retM (VStr "/a,/b/x.js").
Proof.
  cbv zeta.
  assert (H1 : result_of (fst (findPath (Posix.host disk_comma true false)
                                        "x.js" ["/a,/b"] false None None ∅)) =
               Return (VStr "/a,/b/x.js")) by (vm_compute; reflexivity).
  split; [exact H1 | split; [reflexivity |]].
  rewrite (findPath_answers_from_cache_on_any_host
             (Posix.host disk_comma true false) (Posix.host disk_old false true)
             "x.js" ["/a,/b"] false None None ∅ _ H1 eq_refl).
  reflexivity.
Defined.

(** ** Requests without search paths, and absolute requests *)

(** X4.  An absolute request is resolved without a look at the search
    paths: from an empty cache, any two lists of paths, the empty one
    included, give the same probes and the same result.  A request that
    is not absolute and comes with no search path gives [""] and probes
    nothing. *)
Theorem findPath_absolute_ignores_paths
        (h : Host) (request : string) (isMain : bool)
        (fields exts : option (list string)) :
  (isAbsolute h request = true ->
   forall paths paths',
     fst (findPath h request paths isMain fields exts ∅) =
     fst (findPath h request paths' isMain fields exts ∅)) /\
  (isAbsolute h request = false ->
   findPath h request [] isMain fields exts ∅ = (retM (VStr ""), ∅)).
Proof.
  split.
  - intros Habs paths paths'.
    rewrite !findPath_miss by (rewrite lookup_empty; reflexivity).
    unfold findPath_uncached. rewrite Habs. cbn [negb andb].
    destruct (useRealpath_of h isMain);
      destruct (result_of (searchPaths _ _ _ _ _ _ _ _ _)) as [[v|]|e];
      reflexivity.
  - intros Habs.
    rewrite findPath_miss by (rewrite lookup_empty; reflexivity).
    unfold findPath_uncached. rewrite Habs. reflexivity.
Qed.

Lemma findPath_absolute_ignores_paths_witness :
  let h := Posix.host disk_comma true false in
  isAbsolute h "/a,/b/x.js" = true /\
  fst (findPath h "/a,/b/x.js" [] false None None ∅) =
    fst (findPath h "/a,/b/x.js" ["/a"; "/b"] false None None ∅) /\
  isAbsolute h "x.js" = false /\
  findPath h "x.js" [] false None None ∅ = (retM (VStr ""), ∅).
Proof.
  cbv zeta.
  assert (H1 : isAbsolute (Posix.host disk_comma true false) "/a,/b/x.js" = true)
    by reflexivity.
  assert (H2 : isAbsolute (Posix.host disk_comma true false) "x.js" = false)
    by reflexivity.
  split; [exact H1 | split; [| split; [exact H2 |]]].
  - exact (proj1 (findPath_absolute_ignores_paths
                    (Posix.host disk_comma true false) "/a,/b/x.js" false
                    None None) H1 [] ["/a"; "/b"]).
  - exact (proj2 (findPath_absolute_ignores_paths
                    (Posix.host disk_comma true false) "x.js" false
                    None None) H2).
Defined.

(** ** The cache key and [isMain] *)

Lemma last_char_app s t : t <> "" -> last_char (s +:+ t) = last_char t.
Proof.
  intros Ht. induction s as [|c s IH]; [reflexivity|].
  change (String c s +:+ t) with (String c (s +:+ t)).
  destruct (s +:+ t) eqn:Happ.
  - destruct s; [cbn in Happ; contradiction | discriminate Happ].
  - exact IH.
Qed.

Lemma append_nonempty_r s t : t <> "" -> s +:+ t <> "".
Proof. intros Ht. destruct s; [exact Ht | discriminate]. Qed.

Lemma last_char_cacheKey request paths isMain fields exts :
  last_char (cacheKey request paths isMain fields exts) =
  Some (if isMain then "1"%char else ascii_of_nat 0).
Proof.
  unfold cacheKey, NUL.
  repeat (rewrite last_char_app;
          [| solve [ repeat first [ discriminate
                                  | apply append_nonempty_r ] ]]).
  destruct isMain; reflexivity.
Qed.

(** X5.  Resolutions of the main module and of a dependency never
    share a cache entry: whatever the other arguments are, two equal keys
    come from the same [isMain]. *)
Theorem cacheKey_determines_isMain
        (request request' : string) (paths paths' : list string)
        (isMain isMain' : bool) (fields fields' exts exts' : option (list string)) :
  cacheKey request paths isMain fields exts =
  cacheKey request' paths' isMain' fields' exts' ->
  isMain = isMain'.
Proof.
  intros Hkey. apply (f_equal last_char) in Hkey.
  rewrite !last_char_cacheKey in Hkey.
  destruct isMain, isMain'; first [reflexivity | discriminate Hkey].
Qed.

Lemma cacheKey_determines_isMain_witness :
  cacheKey "r" ["a,b"] true None None = cacheKey "r" ["a"; "b"] true None None /\
  true = true.
Proof.
  assert (H : cacheKey "r" ["a,b"] true None None =
              cacheKey "r" ["a"; "b"] true None None) by reflexivity.
  split; [exact H|].
  exact (cacheKey_determines_isMain "r" "r" ["a,b"] ["a"; "b"] true true
                                    None None None None H).
Defined.

(** ** The defaults of [fields] and [exts], and the order of the search paths *)

Lemma bindM_agree {A B : Type} (S : completion B -> completion B -> Prop)
      (c : M A) (k k' : A -> M B) :
  (forall a, trace_of (k a) = trace_of (k' a) /\
             S (result_of (k a)) (result_of (k' a))) ->
  (forall e, S (Throw e) (Throw e)) ->
  trace_of (bindM c k) = trace_of (bindM c k') /\
  S (result_of (bindM c k)) (result_of (bindM c k')).
Proof.
  intros Hk He. rewrite !trace_bindM, !result_bindM.
  destruct (result_of c) as [a|e].
  - destruct (Hk a) as [-> HS]. split; [reflexivity | exact HS].
  - split; [reflexivity | apply He].
Qed.

Lemma tryCandidate_defaults h curPath request isAbs useRealpath trailingSlash
      isMain fields exts :
  trace_of (tryCandidate h curPath request isAbs useRealpath trailingSlash
                         isMain fields exts) =
  trace_of (tryCandidate h curPath request isAbs useRealpath trailingSlash
                         isMain (Some (default_fields fields))
                         (Some (default_exts h exts))) /\
  agree_up_to_defaults h
    (result_of (tryCandidate h curPath request isAbs useRealpath trailingSlash
                             isMain fields exts))
    (result_of (tryCandidate h curPath request isAbs useRealpath trailingSlash
                             isMain (Some (default_fields fields))
                             (Some (default_exts h exts)))).
Proof.
  unfold tryCandidate.
  apply bindM_agree; [intros skip | intros e; reflexivity].
  destruct skip; [split; [reflexivity | cbn; auto]|].
  apply bindM_agree; [intros thePath0 | intros e; reflexivity].
  destruct (useRealpath && _); [split; [reflexivity | cbn; auto]|].
  set (thePath := if isAbs then _ else _).
  apply bindM_agree; [intros rc | intros e; reflexivity].
  match goal with
  | |- trace_of (bindM (liftW ?p) _) = trace_of (bindM (liftW ?p') _) /\ _ =>
      assert (HP : exists t fp e1 e1',
                 p = (t, (fp, e1)) /\ p' = (t, (fp, e1')) /\
                 default_exts h e1 = default_exts h e1')
  end.
  { destruct (negb trailingSlash); [|repeat eexists].
    destruct (if rc =? 0 then _ else _) as [t1 fp1]. unfold bindW.
    destruct (String.eqb fp1 ""); [|repeat eexists].
    cbn [default_exts].
    destruct (tryExtensions h thePath (default_exts h exts) isMain) as [t2 fp2].
    repeat eexists. }
  destruct HP as (t & fp & e1 & e1' & -> & -> & Hexts).
  rewrite !trace_bindM, !result_bindM, !result_liftW, !trace_liftW.
  cbn [trace_of result_of fst snd default_fields]. rewrite <- Hexts.
  destruct ((rc =? 1) && _).
  - rewrite !trace_bindM, !result_bindM.
    destruct (result_of (tryPackage _ _ _ _ _ _)); cbn; auto.
  - cbn. auto.
Qed.

Lemma bindM_post {A B : Type} (P : completion B -> Prop) (c : M A) (k : A -> M B) :
  (forall a, P (result_of (k a))) ->
  (forall e, P (Throw e)) ->
  P (result_of (bindM c k)).
Proof.
  intros Hk He. rewrite result_bindM. destruct (result_of c); [apply Hk | apply He].
Qed.

(** An iteration leaves in [fields] and [exts] what it found there, or
    the defaults in place of [undefined]. *)
Lemma tryCandidate_preserves_defaults h curPath request isAbs useRealpath
      trailingSlash isMain fields exts :
  match result_of (tryCandidate h curPath request isAbs useRealpath trailingSlash
                                isMain fields exts) with
  | Return (_, f, e) =>
      default_fields f = default_fields fields /\
      default_exts h e = default_exts h exts
  | Throw _ => True
  end.
Proof.
  unfold tryCandidate.
  apply (bindM_post (fun r => match r with
                              | Return (_, f, e) => _ /\ _
                              | Throw _ => True
                              end)); [intros skip | intros; exact I].
  destruct skip; [split; reflexivity|].
  apply (bindM_post (fun r => match r with
                              | Return (_, f, e) => _ /\ _
                              | Throw _ => True
                              end)); [intros thePath0 | intros; exact I].
  destruct (useRealpath && _); [split; reflexivity|].
  set (thePath := if isAbs then _ else _).
  apply (bindM_post (fun r => match r with
                              | Return (_, f, e) => _ /\ _
                              | Throw _ => True
                              end)); [intros rc | intros; exact I].
  match goal with
  | |- context [bindM (liftW ?p) _] =>
      assert (HP : default_exts h (snd (result_of p)) = default_exts h exts)
  end.
  { destruct (negb trailingSlash); [|reflexivity].
    rewrite result_bindW. destruct (String.eqb _ ""); [|reflexivity].
    rewrite result_bindW. reflexivity. }
  rewrite result_bindM, result_liftW.
  destruct (result_of (if negb trailingSlash then _ else _)) as [fp e1].
  cbn [snd] in HP.
  destruct ((rc =? 1) && _).
  - rewrite result_bindM.
    destruct (result_of (tryPackage _ _ _ _ _ _)); [|exact I].
    split; [reflexivity | exact HP].
  - split; [reflexivity | exact HP].
Qed.

Lemma searchPaths_defaults h paths request isAbs useRealpath trailingSlash isMain :
  forall fields exts fields' exts',
    default_fields fields = default_fields fields' ->
    default_exts h exts = default_exts h exts' ->
    searchPaths h paths request isAbs useRealpath trailingSlash isMain fields exts =
    searchPaths h paths request isAbs useRealpath trailingSlash isMain fields' exts'.
Proof.
  induction paths as [|curPath rest IH]; intros fields exts fields' exts' Hf He;
    [reflexivity|].
  cbn [searchPaths].
  destruct (tryCandidate_defaults h curPath request isAbs useRealpath trailingSlash
              isMain fields exts) as [Ht1 Hr1].
  destruct (tryCandidate_defaults h curPath request isAbs useRealpath trailingSlash
              isMain fields' exts') as [Ht2 Hr2].
  rewrite <- Hf, <- He in Ht2, Hr2.
  rewrite (surjective_pairing (bindM _ _)).
  rewrite (surjective_pairing (bindM (tryCandidate h curPath request isAbs useRealpath trailingSlash isMain fields' exts') _)).
  change (fst ?c) with (trace_of c). change (snd ?c) with (result_of c).
  rewrite !trace_bindM, !result_bindM, Ht1, Ht2.
  unfold agree_up_to_defaults in Hr1, Hr2.
  destruct (result_of (tryCandidate h curPath request isAbs useRealpath trailingSlash
                         isMain fields exts)) as [[[v1 f1] e1]|x1];
    destruct (result_of (tryCandidate h curPath request isAbs useRealpath
                           trailingSlash isMain (Some (default_fields fields))
                           (Some (default_exts h exts)))) as [[[v f] e]|x];
    try contradiction;
    destruct (result_of (tryCandidate h curPath request isAbs useRealpath
                           trailingSlash isMain fields' exts')) as [[[v2 f2] e2]|x2];
    try contradiction.
  - destruct Hr1 as (-> & Hf1 & He1), Hr2 as (-> & Hf2 & He2).
    destruct (negb (is_empty_string v)); [reflexivity|].
    rewrite (IH f1 e1 f2 e2) by congruence. reflexivity.
  - subst. reflexivity.
Qed.

(** X6.  Leaving [fields] or [exts] out is the same as passing
    [["main"]] or the keys of [Module._extensions]: from an empty cache
    the probes, the warnings and the result are the same, although the
    defaults are filled in only when an iteration of the loop reaches the
    place that needs them. *)
Theorem findPath_defaults
        (h : Host) (request : string) (paths : list string) (isMain : bool)
        (fields exts : option (list string)) :
  fst (findPath h request paths isMain fields exts ∅) =
  fst (findPath h request paths isMain
                (Some (match fields with Some f => f | None => ["main"] end))
                (Some (match exts with Some e => e | None => extensionKeys h end))
                ∅).
Proof.
  rewrite !findPath_miss by (rewrite lookup_empty; reflexivity).
  unfold findPath_uncached.
  destruct (negb (isAbsolute h request) && _); [reflexivity|].
  destruct (if isAbsolute h request then _ else _) as [paths' request'].
  rewrite (searchPaths_defaults h paths' request' _ _ _ _ fields exts
             (Some (default_fields fields)) (Some (default_exts h exts)))
    by reflexivity.
  change (match fields with Some f => f | None => ["main"] end)
    with (default_fields fields).
  change (match exts with Some e => e | None => extensionKeys h end)
    with (default_exts h exts).
  destruct (result_of (searchPaths _ _ _ _ _ _ _ _ _)) as [[v|]|e]; reflexivity.
Qed.

(** X7.  The search paths are tried in order and the first one that
    settles the request ends the search: a path that gives a result other
    than [""] is returned, and a path where [tryPackage] throws makes the
    whole search throw, also when a later path would have given a
    result. *)
Theorem searchPaths_first_settled
        (h : Host) (paths : list string) (request : string)
        (isAbs useRealpath trailingSlash isMain : bool)
        (fields exts : list string) :
  result_of (searchPaths h paths request isAbs useRealpath trailingSlash isMain
                         (Some fields) (Some exts)) =
  match List.find
          (fun p => settles (candidate h request isAbs useRealpath trailingSlash
                                       isMain fields exts p)) paths with
  | Some p =>
      match candidate h request isAbs useRealpath trailingSlash isMain
                      fields exts p with
      | Return (foundPath, _, _) => Return (Some foundPath)
      | Throw e => Throw e
      end
  | None => Return None
  end.
Proof.
  induction paths as [|curPath rest IH]; [reflexivity|].
  cbn [searchPaths List.find]. rewrite result_bindM. unfold candidate in *.
  pose proof (tryCandidate_preserves_defaults h curPath request isAbs
                useRealpath trailingSlash isMain (Some fields) (Some exts))
    as Hkept.
  destruct (result_of (tryCandidate h curPath request isAbs useRealpath
                         trailingSlash isMain (Some fields) (Some exts)))
    as [[[v f] e]|x] eqn:Hcand; cbn [settles]; [|rewrite Hcand; reflexivity].
  destruct Hkept as [Hf He].
  destruct (negb (is_empty_string v)); [rewrite Hcand; reflexivity|].
  rewrite (searchPaths_defaults h rest request _ _ _ _ f e
             (Some fields) (Some exts)) by assumption.
  exact IH.
Qed.

(** The package [/nm/pkg] names a ["main"] that is gone and has no
    index file: the search throws, although the second search path holds
    an [index.js] for the same name. *)
Example error_in_first_path_ends_search :
  let d := {| Posix.files := ["/lib/pkg/index.js"];
              Posix.dirs := ["/nm"; "/nm/pkg"; "/lib"; "/lib/pkg"];
              Posix.packages := [("/nm/pkg", [("main", VStr "./gone.js")])] |} in
  result_of (fst (findPath (Posix.host d true false) "pkg" ["/nm"; "/lib"]
                           false None None ∅)) =
    Throw (MAIN_NOT_FOUND "pkg" "/nm/pkg/package.json") /\
  result_of (fst (findPath (Posix.host d true false) "pkg" ["/lib"]
                           false None None ∅)) =
    Return (VStr "/lib/pkg/index.js").
Proof. vm_compute. split; reflexivity. Qed.

(** ** Warnings of [findPath] *)

Lemma bindM_silent {A B : Type} (c : M A) (k : A -> M B) :
  warns (trace_of c) = false ->
  (forall a, warns (trace_of (k a)) = false) ->
  warns (trace_of (bindM c k)) = false.
Proof.
  intros Hc Hk. rewrite trace_bindM, warns_app, Hc.
  destruct (result_of c); [apply Hk | reflexivity].
Qed.

Lemma liftW_silent {A : Type} (c : W A) :
  quiet (trace_of c) -> warns (trace_of (liftW c)) = false.
Proof. intros Hq. rewrite trace_liftW. apply quiet_warns, Hq. Qed.

Lemma tryPackage_silent h request dir fields exts isMain :
  pendingDeprecation h = false ->
  warns (trace_of (tryPackage h request dir fields exts isMain)) = false.
Proof.
  intros Hflag. rewrite tryPackage_warns, Hflag, andb_false_r.
  destruct (readPackage h dir fields); [|reflexivity].
  destruct (List.find _ fields); [reflexivity|].
  destruct (result_of _) as [[p|]|e]; reflexivity.
Qed.

Lemma tryCandidate_silent h curPath request isAbs useRealpath trailingSlash
      isMain fields exts :
  pendingDeprecation h = false ->
  warns (trace_of (tryCandidate h curPath request isAbs useRealpath trailingSlash
                                isMain fields exts)) = false.
Proof.
  intros Hflag. unfold tryCandidate.
  apply bindM_silent.
  { apply liftW_silent. destruct (negb isAbs); repeat constructor. }
  intros skip. destruct skip; [reflexivity|].
  apply bindM_silent.
  { apply liftW_silent. destruct useRealpath; repeat constructor. }
  intros thePath0. destruct (useRealpath && _); [reflexivity|].
  set (thePath := if isAbs then _ else _).
  apply bindM_silent; [apply liftW_silent, classify_quiet|].
  intros rc. apply bindM_silent.
  { apply liftW_silent. destruct (negb trailingSlash); [|constructor].
    rewrite trace_bindW. apply quiet_app.
    - destruct (rc =? 0); [destruct useRealpath|]; repeat constructor.
    - destruct (String.eqb _ ""); [|constructor].
      rewrite trace_bindW. apply quiet_app; [apply tryExtensions_quiet|constructor]. }
  intros [foundPath exts0]. destruct ((rc =? 1) && _); [|reflexivity].
  apply bindM_silent; [apply tryPackage_silent, Hflag | reflexivity].
Qed.

Lemma searchPaths_silent h paths request isAbs useRealpath trailingSlash isMain :
  pendingDeprecation h = false ->
  forall fields exts,
    warns (trace_of (searchPaths h paths request isAbs useRealpath trailingSlash
                                 isMain fields exts)) = false.
Proof.
  intros Hflag. induction paths as [|curPath rest IH]; intros fields exts;
    [reflexivity|].
  cbn [searchPaths]. apply bindM_silent; [apply tryCandidate_silent, Hflag|].
  intros [[foundPath fields'] exts'].
  destruct (negb _); [reflexivity | apply IH].
Qed.

(** X8.  Without [--pending-deprecation] no call of [findPath] emits a
    warning, whatever the descriptors on the disk look like. *)
Theorem findPath_silent_without_flag
        (h : Host) (request : string) (paths : list string) (isMain : bool)
        (fields exts : option (list string)) (cache : gmap string value) :
  pendingDeprecation h = false ->
  warns (trace_of (fst (findPath h request paths isMain fields exts cache))) = false.
Proof.
  intros Hflag.
  destruct (findPath_hit_or_miss h request paths isMain fields exts cache)
    as [(w & _ & _ & ->)|[_ ->]]; [reflexivity|].
  unfold findPath_uncached.
  destruct (negb (isAbsolute h request) && _); [reflexivity|].
  destruct (if isAbsolute h request then _ else _) as [paths' request'].
  pose proof (searchPaths_silent h paths' request' (isAbsolute h request)
                (useRealpath_of h isMain) (trailingSlash_of h request) isMain
                Hflag fields exts) as Hsilent.
  destruct (result_of (searchPaths _ _ _ _ _ _ _ _ _)) as [[v|]|e]; exact Hsilent.
Qed.

Lemma findPath_silent_without_flag_witness :
  pendingDeprecation (Posix.host disk_old true false) = false /\
  warns (trace_of (fst (findPath (Posix.host disk_old true false) "old" ["/nm"]
                                 false None None ∅))) = false.
Proof.
  split; [reflexivity|].
  exact (findPath_silent_without_flag (Posix.host disk_old true false) "old"
           ["/nm"] false None None ∅ eq_refl).
Defined.

(** ** Requests that name a directory *)

Lemma length_append_nat s t :
  String.length (s +:+ t) = (String.length s + String.length t)%nat.
Proof.
  induction s as [|c s IH]; [reflexivity|].
  change (String c s +:+ t) with (String c (s +:+ t)).
  cbn [String.length]. rewrite IH. reflexivity.
Qed.

Lemma get_split i s c :
  String.get i s = Some c ->
  exists front tail, s = front +:+ String c tail /\ String.length front = i.
Proof.
  revert i. induction s as [|d s IH]; intros i Hget; [destruct i; discriminate|].
  destruct i as [|i]; cbn in Hget.
  - injection Hget as ->. exists "", s. split; reflexivity.
  - destruct (IH i Hget) as (front & tail & -> & <-).
    exists (String d front), tail. split; reflexivity.
Qed.

Lemma get_after front c tail k :
  String.get (String.length front + k) (front +:+ String c tail) =
  String.get k (String c tail).
Proof. induction front as [|d front IH]; cbn; [reflexivity | exact IH]. Qed.

Lemma code_of_inj c d : code_of c = code_of d -> c = d.
Proof.
  unfold code_of. intros H. apply Nat2Z.inj in H.
  rewrite <- (ascii_nat_embedding c), <- (ascii_nat_embedding d), H. reflexivity.
Qed.

Lemma charCodeAt_split s i z :
  JS.charCodeAt s i = Some z ->
  exists front c tail,
    s = front +:+ String c tail /\ Z.of_nat (String.length front) = i /\
    z = code_of c.
Proof.
  unfold JS.charCodeAt. destruct (Z.ltb_spec i 0) as [Hneg|Hneg]; [discriminate|].
  destruct (String.get (Z.to_nat i) s) as [c|] eqn:Hget; [|discriminate].
  intros [= <-]. destruct (get_split _ _ _ Hget) as (front & tail & -> & Hlen).
  exists front, c, tail. repeat split. lia.
Qed.

Lemma charCodeAt_after front c tail k :
  JS.charCodeAt (front +:+ String c tail) (Z.of_nat (String.length front) + Z.of_nat k) =
  JS.charCodeAt (String c tail) (Z.of_nat k).
Proof.
  unfold JS.charCodeAt.
  destruct (Z.ltb_spec (Z.of_nat (String.length front) + Z.of_nat k) 0); [lia|].
  destruct (Z.ltb_spec (Z.of_nat k) 0); [lia|].
  replace (Z.to_nat (Z.of_nat (String.length front) + Z.of_nat k))
    with (String.length front + k)%nat by lia.
  rewrite get_after, Nat2Z.id. reflexivity.
Qed.

(** The code units of a string that ends with [String c tail], counted
    from the place of [c]. *)
Lemma charCodeAt_end front c tail (i : Z) (k : nat) :
  i = JS.length (front +:+ String c tail)
      - Z.of_nat (String.length (String c tail)) + Z.of_nat k ->
  JS.charCodeAt (front +:+ String c tail) i =
  JS.charCodeAt (String c tail) (Z.of_nat k).
Proof.
  intros ->. unfold JS.length. rewrite length_append_nat.
  replace (Z.of_nat (String.length front + String.length (String c tail))
           - Z.of_nat (String.length (String c tail)) + Z.of_nat k)
    with (Z.of_nat (String.length front) + Z.of_nat k) by lia.
  apply charCodeAt_after.
Qed.

Lemma tail_length front c tail (n : Z) :
  Z.of_nat (String.length front) = JS.length (front +:+ String c tail) - n ->
  Z.of_nat (String.length (String c tail)) = n.
Proof. unfold JS.length. rewrite length_append_nat. lia. Qed.

(** X9.  On a host for which neither [NaN] nor the code of [.] is a
    separator, [findPath] takes a request for the name of a directory
    exactly when the request ends with a separator, or with a separator
    followed by [.] or by [..]; the requests [.] and [..] themselves are
    not taken so. *)
Theorem trailingSlash_of_spec (h : Host) (request : string) :
  isSep h None = false ->
  isSep h (Some DOT) = false ->
  trailingSlash_of h request = true <->
  exists front c tail,
    request = front +:+ String c tail /\
    isSep h (Some (code_of c)) = true /\
    (tail = "" \/ tail = "." \/ tail = "..").
Proof.
  intros Hnan Hdot. unfold trailingSlash_of. split.
  - destruct (JS.length request =? 0); [discriminate|]. cbn [negb].
    destruct (decide (JS.charCodeAt request (JS.length request - 1) = Some DOT))
      as [H1|H1].
    + destruct (decide (JS.charCodeAt request (JS.length request - 2) = Some DOT))
        as [H2|H2].
      * intros Hsep.
        destruct (JS.charCodeAt request (JS.length request - 3)) as [z|] eqn:H3;
          [|congruence].
        destruct (charCodeAt_split _ _ _ H3) as (front & c & tail & -> & Hlen & ->).
        exists front, c, tail. repeat split; [exact Hsep|].
        apply tail_length in Hlen.
        destruct tail as [|a [|b [|? ?]]]; cbn [String.length] in Hlen; try lia.
        rewrite (charCodeAt_end front c _ _ 1) in H2
          by (cbn [String.length]; lia).
        rewrite (charCodeAt_end front c _ _ 2) in H1
          by (cbn [String.length]; lia).
        cbn in H1, H2. injection H1 as H1. injection H2 as H2.
        apply (code_of_inj b ".") in H1. apply (code_of_inj a ".") in H2.
        subst. right. right. reflexivity.
      * intros Hsep.
        destruct (JS.charCodeAt request (JS.length request - 2)) as [z|] eqn:H3;
          [|congruence].
        destruct (charCodeAt_split _ _ _ H3) as (front & c & tail & -> & Hlen & ->).
        exists front, c, tail. repeat split; [exact Hsep|].
        apply tail_length in Hlen.
        destruct tail as [|a [|? ?]]; cbn [String.length] in Hlen; try lia.
        rewrite (charCodeAt_end front c _ _ 1) in H1
          by (cbn [String.length]; lia).
        cbn in H1. injection H1 as H1.
        apply (code_of_inj a ".") in H1. subst. right. left. reflexivity.
    + intros Hsep.
      destruct (JS.charCodeAt request (JS.length request - 1)) as [z|] eqn:H3;
        [|congruence].
      destruct (charCodeAt_split _ _ _ H3) as (front & c & tail & -> & Hlen & ->).
      exists front, c, tail. repeat split; [exact Hsep|].
      apply tail_length in Hlen.
      destruct tail as [|? ?]; cbn [String.length] in Hlen; [|lia].
      left. reflexivity.
  - intros (front & c & tail & -> & Hsep & Htail).
    assert (Hc : Some (code_of c) <> Some DOT) by congruence.
    assert (Hlen : (JS.length (front +:+ String c tail) =? 0) = false).
    { apply Z.eqb_neq. unfold JS.length. rewrite length_append_nat.
      cbn [String.length]. lia. }
    rewrite Hlen. cbn [negb].
    destruct Htail as [->|[->| ->]].
    + rewrite (charCodeAt_end front c _ _ 0) by (cbn [String.length]; lia).
      cbn [JS.charCodeAt Z.of_nat Z.ltb Z.compare Z.to_nat String.get].
      fold (code_of c).
      destruct (decide _); [contradiction | exact Hsep].
    + rewrite (charCodeAt_end front c _ (_ - 1) 1) by (cbn [String.length]; lia).
      rewrite (charCodeAt_end front c _ (_ - 2) 0) by (cbn [String.length]; lia).
      change (JS.charCodeAt (String c ".") (Z.of_nat 1)) with (Some DOT).
      change (JS.charCodeAt (String c ".") (Z.of_nat 0)) with (Some (code_of c)).
      destruct (decide (Some DOT = Some DOT)); [|congruence].
      destruct (decide _); [contradiction | exact Hsep].
    + rewrite (charCodeAt_end front c _ (_ - 1) 2) by (cbn [String.length]; lia).
      rewrite (charCodeAt_end front c _ (_ - 2) 1) by (cbn [String.length]; lia).
      rewrite (charCodeAt_end front c _ (_ - 3) 0) by (cbn [String.length]; lia).
      change (JS.charCodeAt (String c "..") (Z.of_nat 2)) with (Some DOT).
      change (JS.charCodeAt (String c "..") (Z.of_nat 1)) with (Some DOT).
      change (JS.charCodeAt (String c "..") (Z.of_nat 0)) with (Some (code_of c)).
      destruct (decide (Some DOT = Some DOT)); [exact Hsep | congruence].
Qed.

Lemma trailingSlash_of_spec_witness :
  let h := Posix.host disk_old true false in
  isSep h None = false /\ isSep h (Some DOT) = false /\
  (trailingSlash_of h "lib/.." = true <->
   exists front c tail,
     "lib/.." = front +:+ String c tail /\
     isSep h (Some (code_of c)) = true /\
     (tail = "" \/ tail = "." \/ tail = "..")).
Proof.
  cbv zeta. split; [reflexivity | split; [reflexivity |]].
  exact (trailingSlash_of_spec (Posix.host disk_old true false) "lib/.."
                               eq_refl eq_refl).
Defined.

(** The requests [.] and [..] alone, and a name that ends with dots. *)
Example trailingSlash_of_dots :
  let h := Posix.host disk_old true false in
  trailingSlash_of h "." = false /\ trailingSlash_of h ".." = false /\
  trailingSlash_of h "a.." = false /\ trailingSlash_of h "a/..." = false /\
  trailingSlash_of h "./" = true /\ trailingSlash_of h "a/." = true.
Proof. vm_compute. repeat split; reflexivity. Qed.

(** ** [tryFilename], [tryExtensions] and [tryField] *)

Lemma tryFilename_result h filename isMain :
  result_of (tryFilename h filename isMain) =
  if result_of (classify h filename) =? 0
  then if useRealpath_of h isMain then realpath h filename else filename
  else "".
Proof.
  unfold tryFilename. rewrite result_bindW.
  destruct (result_of (classify h filename) =? 0); [|reflexivity].
  cbn [negb]. destruct (useRealpath_of h isMain); reflexivity.
Qed.

(** X10.  What [tryExtensions] returns, when it is not [""], is the
    name of a file: the base with one of the given extensions, classified
    as a regular file, and given back as it is or, when symbolic links
    are resolved, as its real path. *)
Theorem tryExtensions_sound
        (h : Host) (base : string) (exts : list string) (isMain : bool) :
  result_of (tryExtensions h base exts isMain) <> "" ->
  exists ext,
    In ext exts /\
    result_of (classify h (base +:+ ext)) = 0 /\
    result_of (tryExtensions h base exts isMain) =
    if useRealpath_of h isMain then realpath h (base +:+ ext) else base +:+ ext.
Proof.
  induction exts as [|ext rest IH]; [intros H; contradiction H; reflexivity|].
  cbn [tryExtensions]. rewrite result_bindW.
  destruct (String.eqb_spec (result_of (tryFilename h (base +:+ ext) isMain)) "")
    as [Hempty|Hfound]; cbn [negb].
  - intros Hrest. destruct (IH Hrest) as (ext' & Hin & Hfile & Hres).
    exists ext'. split; [right; exact Hin | split; assumption].
  - intros _. exists ext. split; [left; reflexivity|].
    cbn [result_of retW snd]. rewrite tryFilename_result in *.
    destruct (Z.eqb_spec (result_of (classify h (base +:+ ext))) 0) as [Hrc|Hrc];
      [split; [exact Hrc | reflexivity] | contradiction Hfound; reflexivity].
Qed.

Lemma tryExtensions_sound_witness :
  let h := Posix.host disk_both true false in
  result_of (tryExtensions h "/app/mod" [".json"; ".js"] false) <> "" /\
  exists ext,
    In ext [".json"; ".js"] /\
    result_of (classify h ("/app/mod" +:+ ext)) = 0 /\
    result_of (tryExtensions h "/app/mod" [".json"; ".js"] false) =
    if useRealpath_of h false then realpath h ("/app/mod" +:+ ext)
    else "/app/mod" +:+ ext.
Proof.
  cbv zeta.
  assert (H : result_of (tryExtensions (Posix.host disk_both true false)
                                       "/app/mod" [".json"; ".js"] false) <> "")
    by (vm_compute; discriminate).
  split; [exact H|].
  exact (tryExtensions_sound (Posix.host disk_both true false) "/app/mod"
                             [".json"; ".js"] false H).
Defined.

(** X11.  A field that is a string is tried as the name of a file,
    then with the extensions, then as a directory with an index file, in
    that order; a value that is not a string, as the one of a field the
    descriptor lacks, resolves to [""] without a probe. *)
Theorem tryField_order
        (h : Host) (dirPath : string) (exts : list string) (isMain : bool) :
  (forall fieldPath,
      result_of (tryField h dirPath (VStr fieldPath) exts isMain) =
      first_nonempty
        [result_of (tryFilename h (resolve h dirPath fieldPath) isMain);
         result_of (tryExtensions h (resolve h dirPath fieldPath) exts isMain);
         result_of (tryExtensions h (resolve h dirPath fieldPath +:+ sep h +:+ "index")
                                  exts isMain)]) /\
  (forall fieldValue,
      is_string fieldValue = false ->
      tryField h dirPath fieldValue exts isMain = retW "").
Proof.
  split.
  - intros fieldPath. cbn [tryField]. rewrite !result_bindW.
    unfold first_nonempty, nonempty. cbn [List.find].
    set (a := result_of (tryFilename h (resolve h dirPath fieldPath) isMain)).
    set (b := result_of (tryExtensions h (resolve h dirPath fieldPath) exts isMain)).
    set (c := result_of (tryExtensions h (resolve h dirPath fieldPath +:+ sep h
                                          +:+ "index") exts isMain)).
    destruct (String.eqb_spec a "") as [Ha|Ha]; cbn [negb result_of retW snd].
    + fold b. destruct (String.eqb_spec b "") as [Hb|Hb]; cbn [negb].
      * fold c. destruct (String.eqb_spec c "") as [Hc|Hc]; cbn [negb];
          [exact Hc | reflexivity].
      * reflexivity.
    + destruct (String.eqb_spec a "") as [Ha'|_]; [contradiction | reflexivity].
  - intros fieldValue Hstr. destruct fieldValue; try reflexivity. discriminate.
Qed.

Lemma tryField_order_witness :
  is_string (get "main" json_dual) = true /\
  is_string (get "browser" json_dual) = false /\
  tryField (Posix.host disk_dual true false) "/nm/dual" (get "browser" json_dual)
           [".js"] false = retW "".
Proof.
  split; [reflexivity | split; [reflexivity |]].
  exact (proj2 (tryField_order (Posix.host disk_dual true false) "/nm/dual"
                               [".js"] false)
               (get "browser" json_dual) eq_refl).
Defined.

(** ** A descriptor without entry point *)

Lemma probes_app t1 t2 : probes (t1 ++ t2) = probes t1 ++ probes t2.
Proof. apply List.filter_app. Qed.

Lemma probes_quiet t : quiet t -> probes t = t.
Proof.
  induction 1 as [|e t He _ IH]; [reflexivity|].
  cbn. rewrite He. f_equal. exact IH.
Qed.

Lemma tryField_not_string h dir v exts isMain :
  is_string v = false -> tryField h dir v exts isMain = retW "".
Proof. intros Hstr. destruct v; try reflexivity. discriminate. Qed.

Lemma tryFields_no_string h json dir fields exts isMain :
  Forall (fun f => is_string (get f json) = false) fields ->
  forall field fieldValue,
    trace_of (tryFields h json dir fields exts isMain field fieldValue) = [] /\
    exists left,
      result_of (tryFields h json dir fields exts isMain field fieldValue) =
      inr left.
Proof.
  induction 1 as [|f rest Hf _ IH]; intros field fieldValue.
  - split; [reflexivity | eexists; reflexivity].
  - cbn [tryFields]. rewrite trace_bindW, result_bindW.
    rewrite (tryField_not_string h dir _ exts isMain Hf).
    cbn [result_of trace_of retW fst snd app field_accepted String.eqb negb andb].
    apply IH.
Qed.

(** X12.  A descriptor that holds none of the fields as a string and no
    exports declaration counts for nothing but the error: after the
    descriptor only [dir/index] is probed, with the extensions, and the
    result is what that gives, or [MAIN_NOT_FOUND] when it gives
    nothing. *)
Theorem tryPackage_without_entry_point
        (h : Host) (request dir : string) (fields exts : list string)
        (isMain : bool) (json : list (string * value)) :
  readPackage h dir fields = Some json ->
  Forall (fun f => is_string (get f json) = false) fields ->
  truthy (get "exports" json) = false ->
  result_of (tryPackage h request dir fields exts isMain) =
    (if nonempty (index_found h dir exts isMain)
     then Return (VStr (index_found h dir exts isMain))
     else Throw (MAIN_NOT_FOUND request (dir +:+ sep h +:+ "package.json"))) /\
  probes (trace_of (tryPackage h request dir fields exts isMain)) =
    ProbeReadPackage dir fields ::
    trace_of (tryExtensions h (dir +:+ sep h +:+ "index") exts isMain).
Proof.
  intros Hread Hfields Hexports.
  destruct (tryFields_no_string h json dir fields exts isMain Hfields VUndef VUndef)
    as [Htrace [[field fieldValue] Hloop]].
  unfold tryPackage.
  rewrite result_bindM, trace_bindM, result_liftW, trace_liftW.
  unfold probeReadPackage at 1 2 3. rewrite trace_bindW, !result_bindW.
  cbn [emit result_of trace_of fst snd retW app]. rewrite Hread.
  rewrite result_bindM, trace_bindM, result_liftW, trace_liftW, Htrace, Hloop.
  rewrite result_bindM, trace_bindM.
  unfold tryExportsField. rewrite Hexports.
  cbn [result_of trace_of retM retW fst snd app].
  split; [apply tryIndex_result|].
  unfold tryIndex. rewrite trace_bindM, trace_liftW, result_liftW.
  cbn [probes List.filter is_probe]. f_equal.
  change (List.filter is_probe ?t) with (probes t). rewrite probes_app.
  rewrite (probes_quiet _ (tryExtensions_quiet _ _ _ _)).
  destruct (String.eqb _ ""); [apply app_nil_r|].
  rewrite trace_bindM. destruct (pendingDeprecation h); apply app_nil_r.
Qed.

Lemma tryPackage_without_entry_point_witness :
  let h := Posix.host disk_no_entry true true in
  readPackage h "/nm/old" ["main"] = Some json_no_entry /\
  Forall (fun f => is_string (get f json_no_entry) = false) ["main"] /\
  truthy (get "exports" json_no_entry) = false /\
  result_of (tryPackage h "old" "/nm/old" ["main"] [".js"] false) =
    Return (VStr "/nm/old/index.js").
Proof.
  cbv zeta.
  assert (H2 : Forall (fun f => is_string (get f json_no_entry) = false) ["main"])
    by (repeat constructor).
  split; [reflexivity | split; [exact H2 | split; [reflexivity |]]].
  rewrite (proj1 (tryPackage_without_entry_point
                    (Posix.host disk_no_entry true true) "old" "/nm/old"
                    ["main"] [".js"] false json_no_entry eq_refl H2 eq_refl)).
  vm_compute. reflexivity.
Defined.

(** ** More of [resolveExports] *)

Lemma findAvailable_strings h l packagePath :
  result_of (findAvailable h (map VStr l) packagePath) =
  Return (match List.find (fun s => existsSync h (join h packagePath s)) l with
          | Some s => VStr s
          | None => VUndef
          end).
Proof.
  induction l as [|s rest IH]; [reflexivity|].
  cbn [map findAvailable List.find]. rewrite result_bindM, result_liftW.
  unfold probeExistsSync. rewrite result_bindW. cbn [result_of retW snd].
  destruct (existsSync h (join h packagePath s)); [reflexivity | exact IH].
Qed.

(** X13.  A list of alternatives that are all strings resolves to the
    first one that exists on the disk, joined with the directory of the
    package, and to [null] when none exists; the subpath plays no part.
    The first existing alternative ends the walk also when it is the
    empty string, for which the result is [null]. *)
Theorem resolveExports_alternatives
        (h : Host) (l : list string) (packagePath subpath : string) :
  result_of (resolveExports h (VArr (map VStr l)) packagePath subpath) =
  Return (match List.find (fun s => existsSync h (join h packagePath s)) l with
          | Some s => if String.eqb s "" then VNull
                      else VStr (join h packagePath s)
          | None => VNull
          end).
Proof.
  cbn [resolveExports]. rewrite result_bindM, findAvailable_strings.
  destruct (List.find _ l) as [s|]; [|reflexivity].
  cbn [truthy]. destruct (String.eqb s ""); reflexivity.
Qed.

(** An empty alternative names the directory of the package itself,
    which exists, and hides the alternative after it. *)
Example empty_alternative_hides_the_rest :
  result_of (resolveExports (Posix.host disk_feature true false)
               (VArr [VStr "./missing.js"; VStr ""; VStr "./dist/feature.js"])
               "/nm/pkg" "") = Return VNull /\
  result_of (resolveExports (Posix.host disk_feature true false)
               (VArr [VStr "./missing.js"; VStr "./dist/feature.js"])
               "/nm/pkg" "") = Return (VStr "/nm/pkg/dist/feature.js").
Proof. vm_compute. split; reflexivity. Qed.

(** X14.  An exports declaration that is a string is taken at its
    word: when no field is taken, [tryPackage] returns the string joined
    with the directory, be there such a file or not.  The step of the
    exports declaration probes nothing and checks nothing: all that
    [tryPackage] leaves in the trace is the reading of the descriptor and
    what the loop over the fields probed. *)
Theorem tryPackage_literal_exports_unchecked
        (h : Host) (request dir : string) (fields exts : list string)
        (isMain : bool) (json : list (string * value)) (target : string) :
  readPackage h dir fields = Some json ->
  List.find (accepted h json dir exts isMain) fields = None ->
  get "exports" json = VStr target ->
  target <> "" ->
  join h dir target <> "" ->
  isExtMJS h (VStr (join h dir target)) = false ->
  result_of (tryPackage h request dir fields exts isMain) =
    Return (VStr (join h dir target)) /\
  trace_of (tryExportsField h json request dir) = [] /\
  trace_of (tryPackage h request dir fields exts isMain) =
    ProbeReadPackage dir fields ::
    trace_of (tryFields h json dir fields exts isMain VUndef VUndef).
Proof.
  intros Hread Hfind Hexports Htarget Hjoin Hmjs.
  apply nonempty_true in Htarget. apply nonempty_true in Hjoin.
  unfold nonempty in Htarget, Hjoin.
  assert (Hcall : tryExportsField h json request dir =
                  retM (Some (VStr (join h dir target)))).
  { unfold tryExportsField. rewrite Hexports. cbn [truthy]. rewrite Htarget.
    cbn [resolveExports]. unfold bindM, bindW, retM, retW.
    cbn [is_empty_string app]. rewrite Hjoin, Hmjs. reflexivity. }
  split; [|split; [rewrite Hcall; reflexivity|]].
  - rewrite tryPackage_result, Hread, Hfind. unfold after_fields.
    rewrite Hcall. reflexivity.
  - unfold tryPackage. rewrite trace_bindM, trace_liftW, result_liftW.
    unfold probeReadPackage at 1 2. rewrite trace_bindW, result_bindW.
    cbn [emit result_of trace_of fst snd retW app]. rewrite Hread.
    rewrite trace_bindM, trace_liftW, result_liftW.
    pose proof (tryFields_result h json dir fields exts isMain VUndef VUndef)
      as Hloop.
    rewrite Hfind in Hloop. destruct Hloop as [[field fieldValue] ->].
    rewrite trace_bindM, Hcall. cbn [trace_of result_of retM retW fst snd app].
    rewrite app_nil_r. reflexivity.
Qed.

Lemma tryPackage_literal_exports_unchecked_witness :
  let h := Posix.host disk_literal true false in
  readPackage h "/nm/pkg" ["main"] = Some json_literal /\
  List.find (accepted h json_literal "/nm/pkg" [".js"] false) ["main"] = None /\
  get "exports" json_literal = VStr "./dist/entry.js" /\
  "./dist/entry.js" <> "" /\
  join h "/nm/pkg" "./dist/entry.js" <> "" /\
  isExtMJS h (VStr (join h "/nm/pkg" "./dist/entry.js")) = false /\
  existsSync h "/nm/pkg/dist/entry.js" = false /\
  result_of (tryPackage h "pkg" "/nm/pkg" ["main"] [".js"] false) =
    Return (VStr "/nm/pkg/dist/entry.js") /\
  trace_of (tryPackage h "pkg" "/nm/pkg" ["main"] [".js"] false) =
    [ProbeReadPackage "/nm/pkg" ["main"]].
Proof.
  cbv zeta.
  assert (H4 : "./dist/entry.js" <> "") by discriminate.
  assert (H5 : join (Posix.host disk_literal true false) "/nm/pkg"
                    "./dist/entry.js" <> "") by (vm_compute; discriminate).
  pose proof (tryPackage_literal_exports_unchecked
                (Posix.host disk_literal true false) "pkg" "/nm/pkg"
                ["main"] [".js"] false json_literal "./dist/entry.js"
                eq_refl eq_refl eq_refl H4 H5 eq_refl) as (Hres & _ & Htrace).
  do 3 (split; [reflexivity|]). split; [exact H4|]. split; [exact H5|].
  do 2 (split; [reflexivity|]).
  split.
  - rewrite Hres. vm_compute. reflexivity.
  - rewrite Htrace. vm_compute. reflexivity.
Defined.

(** With a ["main"] that names the same missing file the loop over the
    fields has probed that path, and those probes are all the trace holds
    besides the reading of the descriptor; the path is returned all the
    same. *)
Example literal_exports_after_probed_main :
  tryPackage (Posix.host disk_literal_main true false) "pkg" "/nm/pkg" ["main"]
             [".js"] false =
  ([ProbeReadPackage "/nm/pkg" ["main"];
    ProbeStatSync "/nm/pkg/dist/entry.js";
    ProbeStatSync "/nm/pkg/dist/entry.js.js";
    ProbeStatSync "/nm/pkg/dist/entry.js/index.js"],
   Return (VStr "/nm/pkg/dist/entry.js")).
Proof. vm_compute. reflexivity. Qed.

Lemma split_no_star s : has_star s = false -> JS.split "*" s = [s].
Proof.
  induction s as [|c s IH]; [reflexivity|].
  cbn [has_star JS.split]. intros [Hc Hs]%orb_false_iff.
  rewrite Hc, (IH Hs). reflexivity.
Qed.

Lemma get_not_well_known key v k :
  includes wellKnownConditions key = false ->
  In k wellKnownConditions ->
  get k [(key, v)] = VUndef.
Proof.
  intros Hkey Hk. cbn [get].
  destruct (String.eqb_spec key k) as [->|_]; [|reflexivity].
  exfalso. unfold includes in Hkey.
  assert (Hex : existsb (String.eqb k) wellKnownConditions = true).
  { apply existsb_exists. exists k. split; [exact Hk | apply String.eqb_refl]. }
  congruence.
Qed.

(** X15.  A key without ["*"] is no exact match but a prefix: a
    mapping with the one key [key], not a condition, and a string for
    value serves every subpath for which ["./" + subpath] starts with
    [key], and no other. *)
Theorem resolveExports_plain_key_is_prefix
        (h : Host) (key target packagePath subpath : string) :
  includes wellKnownConditions key = false ->
  has_star key = false ->
  subpath <> "" ->
  resolveExports h (VObj [(key, VStr target)]) packagePath subpath =
  if JS.startsWith ("./" +:+ subpath) key
  then retM (VStr (join h packagePath target))
  else retM VNull.
Proof.
  intros Hkey Hstar Hsub. rewrite resolveExports_obj. unfold resolveConditions.
  rewrite (get_not_well_known key (VStr target) "require"),
          (get_not_well_known key (VStr target) "node"),
          (get_not_well_known key (VStr target) "default"),
          (get_not_well_known key (VStr target) ".")
    by (try exact Hkey; cbn; auto 10).
  cbn [truthy andb]. unfold resolvePatterns, conditions_of.
  apply nonempty_true in Hsub. unfold nonempty in Hsub. rewrite Hsub.
  cbn [map fst List.filter]. rewrite Hkey. cbn [negb map].
  rewrite (split_no_star key Hstar). cbn [nth nth_error List.find].
  unfold condition_matches. cbn [startsWith endsWith endsWith_falsy orb].
  rewrite andb_true_r.
  destruct (JS.startsWith ("./" +:+ subpath) key); [|reflexivity].
  cbn [cexports pattern endsWith endsWith_falsy negb get].
  rewrite String.eqb_refl. reflexivity.
Qed.

Lemma resolveExports_plain_key_is_prefix_witness :
  includes wellKnownConditions "./feature" = false /\
  has_star "./feature" = false /\
  "features/x" <> "" /\
  resolveExports (Posix.host disk_feature true false) exports_feature "/nm/pkg"
                 "features/x" = retM (VStr "/nm/pkg/dist/feature.js").
Proof.
  assert (H3 : "features/x" <> "") by discriminate.
  split; [reflexivity | split; [reflexivity | split; [exact H3 |]]].
  unfold exports_feature.
  rewrite (resolveExports_plain_key_is_prefix
             (Posix.host disk_feature true false) "./feature"
             "./dist/feature.js" "/nm/pkg" "features/x" eq_refl eq_refl H3).
  vm_compute. reflexivity.
Defined.

Lemma conditions_of_exports props c :
  In c (conditions_of props) -> cexports c = get (pattern c) props.
Proof.
  unfold conditions_of. intros Hin. apply in_map_iff in Hin.
  destruct Hin as (k & <- & _). reflexivity.
Qed.

(** X16.  Two shapes of a descriptor make [resolveExports] throw a
    [TypeError] instead of failing softly: a pattern that matches the
    subpath and has [null] for value, and an alternative that is not a
    string and is reached because no alternative before it exists. *)
Theorem resolveExports_type_errors (h : Host) (packagePath subpath : string) :
  (forall props c,
      truthy (get "require" props) = false ->
      truthy (get "node" props) = false ->
      truthy (get "default" props) = false ->
      subpath <> "" ->
      List.find (condition_matches ("./" +:+ subpath)) (conditions_of props) =
        Some c ->
      cexports c = VNull ->
      result_of (resolveExports h (VObj props) packagePath subpath) =
        Throw TypeError) /\
  (forall l v rest,
      Forall (fun s => existsSync h (join h packagePath s) = false) l ->
      is_string v = false ->
      result_of (resolveExports h (VArr (map VStr l ++ v :: rest))
                                packagePath subpath) = Throw TypeError).
Proof.
  split.
  - intros props c Hrequire Hnode Hdefault Hsub Hfind Hnull.
    rewrite resolveExports_obj. unfold resolveConditions.
    rewrite Hrequire, Hnode, Hdefault.
    apply nonempty_true in Hsub. unfold nonempty in Hsub.
    apply negb_true_iff in Hsub. rewrite Hsub, andb_false_r.
    unfold resolvePatterns. rewrite Hsub. cbn [negb]. rewrite Hfind, Hnull.
    apply List.find_some in Hfind. destruct Hfind as [Hin _].
    rewrite <- (conditions_of_exports props c Hin), Hnull. reflexivity.
  - intros l v rest Hnone Hv. cbn [resolveExports]. rewrite result_bindM.
    assert (Hfind : result_of (findAvailable h (map VStr l ++ v :: rest)
                                             packagePath) = Throw TypeError).
    { induction Hnone as [|s l Hs _ IH].
      - destruct v; try reflexivity. discriminate.
      - cbn [map app findAvailable]. rewrite result_bindM, result_liftW.
        unfold probeExistsSync. rewrite result_bindW.
        cbn [result_of retW snd]. rewrite Hs. exact IH. }
    rewrite Hfind. reflexivity.
Qed.

Lemma resolveExports_type_errors_witness :
  let h := Posix.host disk_feature true false in
  let props := [("./x", VNull)] in
  let c := {| pattern := "./x"; startsWith := "./x"; endsWith := None;
              cexports := VNull |} in
  truthy (get "require" props) = false /\
  truthy (get "node" props) = false /\
  truthy (get "default" props) = false /\
  "x" <> "" /\
  List.find (condition_matches ("./" +:+ "x")) (conditions_of props) = Some c /\
  cexports c = VNull /\
  result_of (resolveExports h (VObj props) "/nm/pkg" "x") = Throw TypeError /\
  Forall (fun s => existsSync h (join h "/nm/pkg" s) = false) ["./a.js"] /\
  is_string (VNum 1) = false /\
  result_of (resolveExports h (VArr (map VStr ["./a.js"] ++ VNum 1 :: []))
                            "/nm/pkg" "x") = Throw TypeError.
Proof.
  cbv zeta.
  assert (H4 : "x" <> "") by discriminate.
  assert (H8 : Forall (fun s => existsSync (Posix.host disk_feature true false)
                                  (join (Posix.host disk_feature true false)
                                        "/nm/pkg" s) = false) ["./a.js"])
    by (repeat constructor).
  do 3 (split; [reflexivity|]). split; [exact H4|].
  do 2 (split; [reflexivity|]).
  split; [|split; [exact H8 | split; [reflexivity|]]].
  - exact (proj1 (resolveExports_type_errors (Posix.host disk_feature true false)
                    "/nm/pkg" "x")
                 [("./x", VNull)] _ eq_refl eq_refl eq_refl H4 eq_refl eq_refl).
  - exact (proj2 (resolveExports_type_errors (Posix.host disk_feature true false)
                    "/nm/pkg" "x")
                 ["./a.js"] (VNum 1) [] H8 eq_refl).
Defined.

Lemma substring_nothing n s : String.substring n 0 s = "".
Proof.
  revert n. induction s as [|c s IH]; intros [|n]; cbn; try reflexivity.
  apply IH.
Qed.

Lemma substring_from_beyond s n : JS.length s <= n -> JS.substring_from s n = "".
Proof.
  intros Hn. unfold JS.substring_from, JS.substring, JS.clamp.
  replace (Z.to_nat (Z.min (Z.max n 0) (JS.length s)))
    with (Z.to_nat (Z.min (Z.max (JS.length s) 0) (JS.length s)))
    by (unfold JS.length in *; lia).
  rewrite Nat.min_id, Nat.max_id, Nat.sub_diag. apply substring_nothing.
Qed.

(** X17.  The subpath [tryPackage] hands to [resolveExports] is what is
    left of the request past the length of the directory name and one
    more character: for a request that is not longer than that it is
    empty, and then a mapping without a truthy [require], [node],
    [default] or ["."] resolves to [null] without a look at its
    patterns. *)
Theorem short_request_never_reaches_patterns
        (h : Host) (request dir : string) (props : list (string * value)) :
  JS.length request <= JS.length dir + 1 ->
  truthy (get "require" props) = false ->
  truthy (get "node" props) = false ->
  truthy (get "default" props) = false ->
  truthy (get "." props) = false ->
  resolveExports h (VObj props) dir
                 (JS.substring_from request (JS.length dir + 1)) = retM VNull.
Proof.
  intros Hshort Hrequire Hnode Hdefault Hdot.
  rewrite (substring_from_beyond request _ Hshort), resolveExports_obj.
  unfold resolveConditions, resolvePatterns.
  rewrite Hrequire, Hnode, Hdefault, Hdot. reflexivity.
Qed.

Lemma short_request_never_reaches_patterns_witness :
  JS.length "pkg" <= JS.length "/nm/pkg" + 1 /\
  truthy (get "require" [("./feature", VStr "./dist/feature.js")]) = false /\
  truthy (get "node" [("./feature", VStr "./dist/feature.js")]) = false /\
  truthy (get "default" [("./feature", VStr "./dist/feature.js")]) = false /\
  truthy (get "." [("./feature", VStr "./dist/feature.js")]) = false /\
  resolveExports (Posix.host disk_feature true false) exports_feature "/nm/pkg"
                 (JS.substring_from "pkg" (JS.length "/nm/pkg" + 1)) = retM VNull.
Proof.
  assert (H1 : JS.length "pkg" <= JS.length "/nm/pkg" + 1) by (vm_compute; discriminate).
  repeat (split; [first [reflexivity | assumption]|]).
  exact (short_request_never_reaches_patterns
           (Posix.host disk_feature true false) "pkg" "/nm/pkg"
           [("./feature", VStr "./dist/feature.js")] H1
           eq_refl eq_refl eq_refl eq_refl).
Defined.

(** ** [getOptions] *)

Lemma getOptions_stores o env :
  GetOptions.env_of (GetOptions.getOptions o env) =
  Some (GetOptions.options_of (GetOptions.getOptions o env)).
Proof.
  unfold GetOptions.getOptions. destruct env as [options|]; [reflexivity|].
  destruct (if truthy (GetOptions.processEnv o) then _ else _); try reflexivity.
  destruct (GetOptions.isPath o _).
  - destruct (GetOptions.readFile o _) as [text|]; [|reflexivity].
    destruct (String.eqb text ""); reflexivity.
  - destruct (String.eqb _ ""); reflexivity.
Qed.

(** X18.  [getOptions] computes its result once: whatever the first
    call returned, [null] included, a later call returns the same without
    reading a file, also when the environment or the file has changed in
    between. *)
Theorem getOptions_computed_once
        (o o' : GetOptions.Host) (env : option value) :
  GetOptions.getOptions o' (GetOptions.env_of (GetOptions.getOptions o env)) =
  ([], GetOptions.options_of (GetOptions.getOptions o env),
   GetOptions.env_of (GetOptions.getOptions o env)).
Proof. rewrite getOptions_stores. reflexivity. Qed.

(** The variable is set after a first call that found it unset: the
    second call still answers [null]. *)
Example getOptions_null_is_kept :
  let first := GetOptions.getOptions (options_host []) None in
  GetOptions.options_of first = VNull /\
  GetOptions.options_of
    (GetOptions.getOptions (options_host [("ESM_OPTIONS", VStr " cjs ")])
                           (GetOptions.env_of first)) = VNull /\
  GetOptions.options_of
    (GetOptions.getOptions (options_host [("ESM_OPTIONS", VStr " cjs ")]) None) =
    VStr "cjs".
Proof. vm_compute. repeat split; reflexivity. Qed.

(** X19.  A result of a first call that is a string is the text of the
    variable or of the file, not empty and without a quote or a left
    brace at its start, unless it is a string the parser gave back; and no
    call reads more than one file. *)
Theorem getOptions_string_result (o : GetOptions.Host) (s : string) :
  GetOptions.options_of (GetOptions.getOptions o None) = VStr s ->
  ((s <> "" /\ GetOptions.looks_like_json s = false) \/
   (exists text, GetOptions.looks_like_json text = true /\
                 GetOptions.parseJSON6 o text = VStr s)) /\
  (List.length (GetOptions.reads_of (GetOptions.getOptions o None)) <= 1)%nat.
Proof.
  unfold GetOptions.getOptions, GetOptions.options_of, GetOptions.reads_of.
  destruct (if truthy (GetOptions.processEnv o) then _ else _) as [| | | |env| |];
    try (cbn; discriminate).
  destruct (GetOptions.isPath o (GetOptions.trim env)).
  - destruct (GetOptions.readFile o _) as [text|]; [|cbn; discriminate].
    destruct (String.eqb_spec text ""); [cbn; discriminate|].
    cbn [fst snd List.length].
    destruct (GetOptions.looks_like_json text) eqn:Hjson.
    + intros Hparse. split; [right; exists text; split; assumption | lia].
    + intros [= <-]. split; [left; split; assumption | lia].
  - destruct (String.eqb_spec (GetOptions.trim env) ""); [cbn; discriminate|].
    cbn [fst snd List.length].
    destruct (GetOptions.looks_like_json (GetOptions.trim env)) eqn:Hjson.
    + intros Hparse. split; [right; eexists; split; eassumption | lia].
    + intros [= <-]. split; [left; split; assumption | lia].
Qed.

Lemma getOptions_string_result_witness :
  let o := options_host [("ESM_OPTIONS", VStr " cjs ")] in
  GetOptions.options_of (GetOptions.getOptions o None) = VStr "cjs" /\
  "cjs" <> "" /\ GetOptions.looks_like_json "cjs" = false.
Proof.
  cbv zeta.
  assert (H : GetOptions.options_of
                (GetOptions.getOptions
                   (options_host [("ESM_OPTIONS", VStr " cjs ")]) None) =
              VStr "cjs") by reflexivity.
  split; [exact H|].
  destruct (proj1 (getOptions_string_result
                     (options_host [("ESM_OPTIONS", VStr " cjs ")]) "cjs" H))
    as [Hplain|(text & _ & Hparse)]; [exact Hplain | discriminate Hparse].
Defined.

(** ** More of [tryPackage] and [findPath] *)

(** X20.  A path that the exports declaration resolves to and that
    [isExtMJS] flags is not returned: [tryPackage] goes on to
    [dir/index], and throws [MAIN_NOT_FOUND] when that gives nothing. *)
Theorem tryPackage_rejects_mjs_exports
        (h : Host) (request dir : string) (fields exts : list string)
        (isMain : bool) (json : list (string * value)) (foundPath : value) :
  readPackage h dir fields = Some json ->
  List.find (accepted h json dir exts isMain) fields = None ->
  truthy (get "exports" json) = true ->
  result_of (resolveExports h (get "exports" json) dir
               (JS.substring_from request (JS.length dir + 1))) =
    Return foundPath ->
  isExtMJS h foundPath = true ->
  result_of (tryPackage h request dir fields exts isMain) =
  if nonempty (index_found h dir exts isMain)
  then Return (VStr (index_found h dir exts isMain))
  else Throw (MAIN_NOT_FOUND request (dir +:+ sep h +:+ "package.json")).
Proof.
  intros Hread Hfind Hexports Hres Hmjs.
  rewrite tryPackage_result, Hread, Hfind. unfold after_fields, tryExportsField.
  rewrite Hexports, result_bindM, Hres, Hmjs, andb_false_r. reflexivity.
Qed.

Lemma tryPackage_rejects_mjs_exports_witness :
  let h := Posix.host disk_esm_only true false in
  readPackage h "/nm/pkg" ["main"] = Some json_esm_only /\
  List.find (accepted h json_esm_only "/nm/pkg" [".js"] false) ["main"] = None /\
  truthy (get "exports" json_esm_only) = true /\
  result_of (resolveExports h (get "exports" json_esm_only) "/nm/pkg"
               (JS.substring_from "pkg" (JS.length "/nm/pkg" + 1))) =
    Return (VStr "/nm/pkg/esm.mjs") /\
  isExtMJS h (VStr "/nm/pkg/esm.mjs") = true /\
  result_of (tryPackage h "pkg" "/nm/pkg" ["main"] [".js"] false) =
    Return (VStr "/nm/pkg/index.js").
Proof.
  cbv zeta.
  assert (H4 : result_of (resolveExports (Posix.host disk_esm_only true false)
                            (get "exports" json_esm_only) "/nm/pkg"
                            (JS.substring_from "pkg" (JS.length "/nm/pkg" + 1))) =
               Return (VStr "/nm/pkg/esm.mjs")) by (vm_compute; reflexivity).
  do 3 (split; [reflexivity|]). split; [exact H4|]. split; [reflexivity|].
  rewrite (tryPackage_rejects_mjs_exports
             (Posix.host disk_esm_only true false) "pkg" "/nm/pkg" ["main"]
             [".js"] false json_esm_only _ eq_refl eq_refl eq_refl H4 eq_refl).
  vm_compute. reflexivity.
Defined.

(** X21.  An absolute request that names a regular file, with symbolic
    links preserved and no separator at its end, resolves to that very
    path at the cost of the one classification of the path, and the
    result is stored under the key of the call. *)
Theorem findPath_absolute_file
        (h : Host) (request : string) (paths : list string) (isMain : bool)
        (fields exts : option (list string)) :
  isAbsolute h request = true ->
  useRealpath_of h isMain = false ->
  trailingSlash_of h request = false ->
  result_of (classify h request) = 0 ->
  request <> "" ->
  findPath h request paths isMain fields exts ∅ =
  ((trace_of (classify h request), Return (VStr request)),
   {[ cacheKey request paths isMain fields exts := VStr request ]}).
Proof.
  intros Habs Hreal Hslash Hfile Hrequest.
  rewrite findPath_miss by (rewrite lookup_empty; reflexivity).
  unfold findPath_uncached. rewrite Habs, Hreal, Hslash. cbn [negb andb].
  cbn [searchPaths]. unfold tryCandidate.
  apply nonempty_true in Hrequest. unfold nonempty in Hrequest.
  apply negb_true_iff in Hrequest.
  unfold result_of, trace_of in *.
  cbv beta iota zeta delta [bindM bindW liftW retM retW throwM negb andb].
  destruct (classify h request) as [t rc]. cbn [fst snd] in *. subst rc.
  cbv beta iota zeta delta [Z.eqb andb negb fst snd]. rewrite Hrequest.
  cbv beta iota zeta delta [is_empty_string negb fst snd]. rewrite Hrequest.
  cbn [app]. rewrite !app_nil_r, insert_empty. reflexivity.
Qed.

Lemma findPath_absolute_file_witness :
  let h := Posix.host disk_both true false in
  isAbsolute h "/app/mod.js" = true /\
  useRealpath_of h false = false /\
  trailingSlash_of h "/app/mod.js" = false /\
  result_of (classify h "/app/mod.js") = 0 /\
  "/app/mod.js" <> "" /\
  fst (findPath h "/app/mod.js" [] false None None ∅) =
    ([ProbeStatSync "/app/mod.js"], Return (VStr "/app/mod.js")).
Proof.
  cbv zeta.
  assert (H5 : "/app/mod.js" <> "") by discriminate.
  do 4 (split; [reflexivity|]). split; [exact H5|].
  rewrite (findPath_absolute_file (Posix.host disk_both true false)
             "/app/mod.js" [] false None None eq_refl eq_refl eq_refl eq_refl H5).
  reflexivity.
Defined.

Lemma searchPaths_no_directory h paths request useRealpath trailingSlash isMain :
  Forall (fun p => statFast h p <> 1) paths ->
  forall fields exts,
    searchPaths h paths request false useRealpath trailingSlash isMain
                fields exts =
    (map ProbeStatFast paths, Return None).
Proof.
  induction 1 as [|p rest Hp _ IH]; intros fields exts; [reflexivity|].
  cbn [searchPaths map]. unfold tryCandidate. cbn [negb].
  apply Z.eqb_neq in Hp.
  unfold bindM, bindW, liftW, retM, retW, probeStatFast, emit. cbn.
  rewrite Hp. cbn. rewrite IH. reflexivity.
Qed.

(** X22.  A search path that is not a directory is set aside after
    the one probe that tells so: for a request that is not absolute, when
    none of the search paths is a directory, the result is [""], each path
    has been probed once and nothing else has, and the cache is left as it
    was. *)
Theorem findPath_skips_non_directories
        (h : Host) (request : string) (paths : list string) (isMain : bool)
        (fields exts : option (list string)) :
  isAbsolute h request = false ->
  Forall (fun p => statFast h p <> 1) paths ->
  findPath h request paths isMain fields exts ∅ =
  ((map ProbeStatFast paths, Return (VStr "")), ∅).
Proof.
  intros Habs Hpaths.
  rewrite findPath_miss by (rewrite lookup_empty; reflexivity).
  unfold findPath_uncached. rewrite Habs. cbn [negb andb].
  destruct paths as [|p rest]; [reflexivity|]. cbn [List.length Nat.eqb].
  rewrite (searchPaths_no_directory h (p :: rest) request _ _ _ Hpaths).
  reflexivity.
Qed.

Lemma findPath_skips_non_directories_witness :
  let h := Posix.host disk_both true false in
  isAbsolute h "mod" = false /\
  Forall (fun p => statFast h p <> 1) ["/app/mod.js"; "/nowhere"] /\
  findPath h "mod" ["/app/mod.js"; "/nowhere"] false None None ∅ =
    (([ProbeStatFast "/app/mod.js"; ProbeStatFast "/nowhere"],
      Return (VStr "")), ∅).
Proof.
  cbv zeta.
  assert (H2 : Forall (fun p => statFast (Posix.host disk_both true false) p <> 1)
                      ["/app/mod.js"; "/nowhere"])
    by (repeat constructor; vm_compute; discriminate).
  split; [reflexivity | split; [exact H2 |]].
  exact (findPath_skips_non_directories (Posix.host disk_both true false) "mod"
           ["/app/mod.js"; "/nowhere"] false None None eq_refl H2).
Defined.
